(** * The Toggle exercises: state initializers, higher-order components,
      the provider pattern, flexible compound components, prop collections.

    Every exercise re-implements one React class component, [Toggle], that
    owns a single flag [on].  The development embeds

    - the JavaScript values the components exchange (props, state and
      context objects are finite maps from property names to values),
    - the part of React the components rely on: [setState] with an updater
      function and a completion callback, default props, context providers
      and consumers,
    - each of the five [Toggle] classes with its helpers, as written,

    and then establishes the properties of the toggle state. *)

From stdpp Require Import gmap strings list fin_maps pretty.

#[local] Set Warnings "-register-all".

(** ** JavaScript values *)

Module JS.

(** Bound methods of a [Toggle] instance ([this.toggle], [this.reset],
    [this.getTogglerProps]) are values that can be stored in objects. *)
Inductive method := MToggle | MReset | MGetTogglerProps.

(** [JExt name] is a function supplied by the caller of the component (an
    observer such as [onToggle]); [JCallAll fns] is the closure returned by
    [callAll(...fns)]. *)
Inductive jsval :=
| JUndefined
| JNull
| JBool (b : bool)
| JNum (n : Z)
| JStr (s : string)
| JExt (name : string)
| JMethod (m : method)
| JCallAll (fns : list jsval)
| JObj (o : gmap string jsval).

Abbreviation jsobj := (gmap string jsval).

(** ToBoolean *)
Definition truthy (v : jsval) : bool :=
  match v with
  | JUndefined | JNull => false
  | JBool b => b
  | JNum n => negb (n =? 0)%Z
  | JStr EmptyString => false
  | JStr _ => true
  | JExt _ | JMethod _ | JCallAll _ | JObj _ => true
  end.

(** The unary operator [!v]. *)
Definition js_not (v : jsval) : jsval := JBool (negb (truthy v)).

(** [typeof v === 'boolean'] *)
Definition is_bool (v : jsval) : bool :=
  match v with JBool _ => true | _ => false end.

(** [o[k]] on an object: a missing property reads as [undefined]. *)
Definition get (o : jsobj) (k : string) : jsval := default JUndefined (o !! k).

(** The own properties of a string: its characters under their indices. *)
Fixpoint characters (i : nat) (s : string) : jsobj :=
  match s with
  | EmptyString => ∅
  | String a rest => <[pretty i := JStr (String a EmptyString)]> (characters (S i) rest)
  end.

(** [{...v}]: spreading an object copies its properties, spreading a string
    its characters; [undefined], [null], booleans, numbers and functions add
    nothing. *)
Definition spread (v : jsval) : jsobj :=
  match v with
  | JObj o => o
  | JStr s => characters 0 s
  | _ => ∅
  end.

Inductive error :=
| TypeError (msg : string)
| Error (msg : string).

(** Result of running code that may throw. *)
Inductive outcome (A : Type) :=
| Ok (a : A)
| Throw (e : error).
Arguments Ok {A} a.
Arguments Throw {A} e.

#[export] Instance outcome_ret : MRet outcome := fun A a => Ok a.
#[export] Instance outcome_bind : MBind outcome := fun A B f m =>
  match m with Ok a => f a | Throw e => Throw e end.

(** [v.k]: reading a property of [undefined] or [null] throws. *)
Definition get_prop (v : jsval) (k : string) : outcome jsval :=
  match v with
  | JUndefined | JNull => Throw (TypeError "Cannot read properties of undefined")
  | JObj o => Ok (get o k)
  | _ => Ok JUndefined
  end.

End JS.
Export JS.

(** ** The part of React the exercises use *)

Module React.

(** The two updater functions passed to [setState] in the sources:
    [({on}) => ({on: !on})] and [() => this.initialState]. *)
Inductive updater := FlipOn | InitialState.

(** The completion callbacks passed to [setState]:
    [() => this.props[prop](this.state.on)]. *)
Inductive callback := Notify (prop : string).

(** A call of a caller-supplied function, as the caller observes it. *)
Inductive event := Call (f : string) (args : list jsval).

(** A mounted class-component instance: [this.props], the instance field
    [this.initialState] ([undefined] in a class that does not declare it),
    [this.state], React's queue of updates enqueued by [setState] and not
    processed yet, and the calls made so far to caller-supplied functions. *)
Record component := mkComponent {
  props : jsobj;
  initialState : jsval;
  state : jsobj;
  pending : list (updater * callback);
  calls : list event
}.

Definition with_state (st : jsobj) (c : component) : component :=
  mkComponent (props c) (initialState c) st (pending c) (calls c).

Definition with_pending (q : list (updater * callback)) (c : component) : component :=
  mkComponent (props c) (initialState c) (state c) q (calls c).

Definition record_call (f : string) (args : list jsval) (c : component) : component :=
  mkComponent (props c) (initialState c) (state c) (pending c) (calls c ++ [Call f args]).

(** [createElement] fills in a default for every prop of [defaultProps]
    that is absent or [undefined]. *)
Definition resolve_default_props (defaults given : jsobj) : jsobj :=
  merge (fun d p =>
           match d, p with
           | Some dv, None | Some dv, Some JUndefined => Some dv
           | _, _ => p
           end) defaults given.

(** [this.setState(updater, callback)] only enqueues. *)
Definition setState (u : updater) (cb : callback) (c : component) : component :=
  with_pending (pending c ++ [(u, cb)]) c.

(** What an updater returns, given the instance and the previous state. *)
Definition run_updater (c : component) (u : updater) (prev : jsobj) : jsval :=
  match u with
  | FlipOn => JObj {[ "on" := js_not (get prev "on") ]}
  | InitialState => initialState c
  end.

(** [Object.assign({}, prevState, partialState)]; an updater that returns
    [null] or [undefined] changes nothing. *)
Definition assign (prev : jsobj) (partial : jsval) : jsobj :=
  match partial with
  | JObj o => o ∪ prev
  | _ => prev
  end.

(** The queued updaters run in order, each on the state the previous one
    produced. *)
Definition process_updates (c : component) : jsobj :=
  foldl (fun st uc => assign st (run_updater c (fst uc) st)) (state c) (pending c).

Section Invoke.

(** The bound methods of the class at hand. *)
Variable methods : method → component → component.

(** [f(...args)] as a statement, its value dropped.  For the closure of
    [callAll] this is [fns.forEach(fn => fn && fn(...args))]. *)
Fixpoint invoke (f : jsval) (args : list jsval) (c : component) : outcome component :=
  match f with
  | JExt name => Ok (record_call name args c)
  | JMethod m => Ok (methods m c)
  | JCallAll fns =>
      (fix forEach (fns : list jsval) (c : component) : outcome component :=
         match fns with
         | [] => Ok c
         | fn :: rest =>
             if truthy fn
             then c' ← invoke fn args c; forEach rest c'
             else forEach rest c
         end) fns c
  | _ => Throw (TypeError "is not a function")
  end.

Definition run_callback (cb : callback) (c : component) : outcome component :=
  match cb with
  | Notify prop => invoke (get (props c) prop) [get (state c) "on"] c
  end.

Fixpoint run_callbacks (cbs : list callback) (c : component) : outcome component :=
  match cbs with
  | [] => Ok c
  | cb :: rest => c' ← run_callback cb c; run_callbacks rest c'
  end.

(** React processes the queue: the new state is committed, then the
    completion callbacks run in order and read the committed state.  An
    update that a callback enqueues waits for the next pass. *)
Definition flush (c : component) : outcome component :=
  run_callbacks (snd <$> pending c)
                (with_pending [] (with_state (process_updates c) c)).

End Invoke.

(** *** Elements, context and rendering *)

(** Every [React.createContext()] makes a context of its own, told apart
    here by a name; none of the exercises gives a default value, so a
    consumer that no provider of its context encloses reads [undefined]. *)
Definition createContext (name : string) : string := name.

(** [EProvider] and [EConsumer] belong to a context; [EConsumer] holds its
    function child, [EComponent] is an element of a function component,
    [EHost] stands for DOM elements and for the imported [Switch]. *)
Inductive element :=
| ENull
| EText (s : string)
| EFragment (children : list element)
| EHost (tag : string) (attrs : jsobj) (children : list element)
| EProvider (context : string) (value : jsval) (children : list element)
| EConsumer (context : string) (child : jsval → outcome element)
| EComponent (type : jsobj → outcome element) (attrs : jsobj).

(** What ends up in the document. *)
Inductive domnode :=
| DText (s : string)
| DHost (tag : string) (attrs : jsobj) (children : list domnode).

(** Rendering under [env], which holds for each context the value of the
    nearest enclosing provider of that context; a context without an
    enclosing provider is absent from [env] and reads as [undefined]. *)
Fixpoint render_element (env : jsobj) (e : element) : outcome (list domnode) :=
  let fix render_all (env : jsobj) (es : list element) : outcome (list domnode) :=
    match es with
    | [] => Ok []
    | e :: rest =>
        d ← render_element env e; ds ← render_all env rest; Ok (d ++ ds)
    end in
  match e with
  | ENull => Ok []
  | EText s => Ok [DText s]
  | EFragment cs => render_all env cs
  | EHost tag attrs cs => ds ← render_all env cs; Ok [DHost tag attrs ds]
  | EProvider context value cs => render_all (<[context := value]> env) cs
  | EConsumer context child => e' ← child (get env context); render_element env e'
  | EComponent type attrs => e' ← type attrs; render_element env e'
  end.

(** Rendering an element that no provider encloses. *)
Definition render_root (e : element) : outcome (list domnode) :=
  render_element ∅ e.

(** A function component: from its props to the element it returns. *)
Abbreviation fcomponent := (jsobj → outcome element).

End React.
Export React.

(** ** Exercise: state initializers *)

Module StateInitializers.

(** [const callAll = (...fns) => (...args) => fns.forEach(fn => fn && fn(...args))] *)
Definition callAll (fns : list jsval) : jsval := JCallAll fns.

Definition defaultProps : jsobj := {[ "initialOn" := JBool false ]}.

(** Field initializers, in order: [initialState = {on: this.props.initialOn}],
    [state = this.initialState].  [given] holds the props of the element as
    React hands them to the class, that is without [key] and [ref], which
    React keeps for itself.  The two fields start as one object; React
    installs a fresh object as [this.state] on every update and never
    writes into the old one, so [initialState] keeps its contents. *)
Definition construct (given : jsobj) : component :=
  let props := resolve_default_props defaultProps given in
  let initialState : jsobj := {[ "on" := get props "initialOn" ]} in
  mkComponent props (JObj initialState) initialState [] [].

Definition toggle : component → component :=
  setState FlipOn (Notify "onToggle").

(** [({onClick, ...props} = {}) => ({'aria-pressed': this.state.on,
    onClick: callAll(onClick, this.toggle), ...props})]; [None] is a call
    without argument. *)
Definition getTogglerProps (arg : option jsobj) (c : component) : jsobj :=
  let arg : jsobj := default ∅ arg in
  let onClick := get arg "onClick" in
  let props : jsobj := delete "onClick" arg in
  props ∪ {[ "aria-pressed" := get (state c) "on";
             "onClick" := callAll [onClick; JMethod MToggle] ]}.

Definition reset : component → component :=
  setState InitialState (Notify "onReset").

Definition getStateAndHelpers (c : component) : jsobj :=
  {[ "on" := get (state c) "on";
     "toggle" := JMethod MToggle;
     "getTogglerProps" := JMethod MGetTogglerProps;
     "reset" := JMethod MReset ]}.

(** [this.props.children(this.getStateAndHelpers())] *)
Definition render (children : jsobj → outcome element) (c : component) : outcome element :=
  children (getStateAndHelpers c).

(** Calling a bound method as a statement; the object [getTogglerProps]
    returns is dropped there. *)
Definition methods (m : method) (c : component) : component :=
  match m with
  | MToggle => toggle c
  | MReset => reset c
  | MGetTogglerProps => c
  end.

(** The function child of [Usage]. *)
Definition Usage_child (c : component) (helpers : jsobj) : outcome element :=
  Ok (EHost "div" ∅
        [ EHost "Switch" (getTogglerProps (Some {[ "on" := get helpers "on" ]}) c) [];
          EHost "hr" ∅ [];
          EHost "button" {[ "onClick" := JMethod MReset ]} [EText "Reset"] ]).

(** [Usage]'s parameters default to [false] and to two logging functions. *)
Definition Usage_props (given : jsobj) : jsobj :=
  resolve_default_props
    {[ "initialOn" := JBool false;
       "onToggle" := JExt "console.log onToggle";
       "onReset" := JExt "console.log onReset" ]} given.

Definition Usage (given : jsobj) : component :=
  let p := Usage_props given in
  construct {[ "initialOn" := get p "initialOn";
               "onToggle" := get p "onToggle";
               "onReset" := get p "onReset" ]}.

End StateInitializers.

(** ** Exercise: higher-order components *)

Module HigherOrder.

(** [const ToggleContext = React.createContext()] *)
Definition ToggleContext : string := createContext "HigherOrder.ToggleContext".

Definition toggle : component → component :=
  setState FlipOn (Notify "onToggle").

(** [state = {on: false, toggle: this.toggle}] *)
Definition construct (given : jsobj) : component :=
  mkComponent given JUndefined
              {[ "on" := JBool false; "toggle" := JMethod MToggle ]} [] [].

Definition methods (m : method) (c : component) : component :=
  match m with
  | MToggle => toggle c
  | _ => c
  end.

(** [static Consumer = ToggleContext.Consumer] *)
Definition Consumer (child : jsval → outcome element) : element :=
  EConsumer ToggleContext child.

(** [<ToggleContext.Provider value={this.state} {...this.props} />]: the
    props are spread after [value]; [children] are the elements given in
    [this.props.children]. *)
Definition render (children : list element) (c : component) : element :=
  EProvider ToggleContext
            (get (props c ∪ {[ "value" := JObj (state c) ]}) "value") children.

(** [Wrapper], without its [ref]:
    [<Toggle.Consumer>{context => <Component toggle={context} {...props}/>}</Toggle.Consumer>] *)
Definition withToggle (Component : fcomponent) : fcomponent :=
  fun props =>
    Ok (Consumer (fun context =>
          Ok (EComponent Component (props ∪ {[ "toggle" := context ]})))).

Definition Layer4 : fcomponent :=
  withToggle (fun props =>
    let t := get props "toggle" in
    on ← get_prop t "on";
    toggle ← get_prop t "toggle";
    Ok (EHost "Switch" {[ "on" := on; "onClick" := toggle ]} [])).

Definition Layer3 : fcomponent :=
  fun _ => Ok (EComponent Layer4 {[ "layer4props" := JStr "test" ]}).

Definition Layer2 : fcomponent :=
  withToggle (fun props =>
    on ← get_prop (get props "toggle") "on";
    Ok (EFragment
          [ EText (if truthy on then "The button is on" else "The button is off");
            EComponent Layer3 ∅ ])).

Definition Layer1 : fcomponent :=
  fun _ => Ok (EComponent Layer2 ∅).

Definition Usage (c : component) : element :=
  render [EComponent Layer1 ∅] c.

End HigherOrder.

(** ** Exercise: flexible compound components with context *)

Module FlexibleCompound.

(** [const ToggleContext = React.createContext()] *)
Definition ToggleContext : string := createContext "FlexibleCompound.ToggleContext".

(** [ToggleConsumer]; [children] is [props.children]. *)
Definition ToggleConsumer (children : jsval → outcome element) : element :=
  EConsumer ToggleContext (fun context =>
    if negb (truthy context)
    then Throw (Error "Toggle compound components cannot be rendered outside the Toggle component")
    else children context).

Definition On (children : element) : element :=
  ToggleConsumer (fun contextValue =>
    on ← get_prop contextValue "on";
    Ok (if truthy on then children else ENull)).

Definition Off (children : element) : element :=
  ToggleConsumer (fun contextValue =>
    on ← get_prop contextValue "on";
    Ok (if negb (truthy on) then children else ENull)).

Definition Button (props : jsobj) : element :=
  ToggleConsumer (fun contextValue =>
    on ← get_prop contextValue "on";
    toggle ← get_prop contextValue "toggle";
    Ok (EHost "Switch" (props ∪ {[ "on" := on; "onClick" := toggle ]}) [])).

Definition toggle : component → component :=
  setState FlipOn (Notify "onToggle").

Definition construct (given : jsobj) : component :=
  mkComponent given JUndefined
              {[ "on" := JBool false; "toggle" := JMethod MToggle ]} [] [].

Definition methods (m : method) (c : component) : component :=
  match m with
  | MToggle => toggle c
  | _ => c
  end.

(** [<ToggleContext.Provider value={{on: this.state.on, toggle: this.toggle}}>] *)
Definition render (children : list element) (c : component) : element :=
  EProvider ToggleContext
            (JObj {[ "on" := get (state c) "on"; "toggle" := JMethod MToggle ]})
            children.

Definition Usage (c : component) : element :=
  render [ On (EText "The button is on");
           Off (EText "The button is off");
           EHost "div" ∅ [Button ∅] ] c.

End FlexibleCompound.

(** ** Exercise: the provider pattern *)

Module Provider.

(** [const ToggleContext = React.createContext()] *)
Definition ToggleContext : string := createContext "Provider.ToggleContext".

Definition ToggleConsumer (children : jsval → outcome element) : element :=
  EConsumer ToggleContext (fun context =>
    if negb (truthy context)
    then Throw (Error "Toggle compound components cannot be rendered outside the Toggle component")
    else children context).

(** [static Consumer = ToggleConsumer] *)
Definition Consumer : (jsval → outcome element) → element := ToggleConsumer.

Definition On (children : element) : element :=
  Consumer (fun contextValue =>
    on ← get_prop contextValue "on";
    Ok (if truthy on then children else ENull)).

Definition Off (children : element) : element :=
  Consumer (fun contextValue =>
    on ← get_prop contextValue "on";
    Ok (if negb (truthy on) then children else ENull)).

Definition Button (props : jsobj) : element :=
  Consumer (fun contextValue =>
    on ← get_prop contextValue "on";
    toggle ← get_prop contextValue "toggle";
    Ok (EHost "Switch" (props ∪ {[ "on" := on; "onClick" := toggle ]}) [])).

Definition toggle : component → component :=
  setState FlipOn (Notify "onToggle").

(** [initialState = {on: false, toggle: this.toggle}], [state = this.initialState] *)
Definition construct (given : jsobj) : component :=
  let initialState : jsobj := {[ "on" := JBool false; "toggle" := JMethod MToggle ]} in
  mkComponent given (JObj initialState) initialState [] [].

Definition methods (m : method) (c : component) : component :=
  match m with
  | MToggle => toggle c
  | _ => c
  end.

(** [this.props.children] is a function of the state or plain elements. *)
Inductive children :=
| RenderProp (f : jsval → outcome element)
| Nodes (es : list element).

(** [ui] is [children(this.state)] for a function child; the remaining
    props are spread over the provider after [value]. *)
Definition render (ch : children) (c : component) : outcome element :=
  ui ← match ch with
       | RenderProp f => e ← f (JObj (state c)); Ok [e]
       | Nodes es => Ok es
       end;
  Ok (EProvider ToggleContext
                (get (props c ∪ {[ "value" := JObj (state c) ]}) "value") ui).

Definition Layer4 : fcomponent :=
  fun _ => Ok (Consumer (fun context =>
    on ← get_prop context "on";
    toggle ← get_prop context "toggle";
    Ok (EHost "Switch" {[ "on" := on; "onClick" := toggle ]} []))).

Definition Layer3 : fcomponent := fun _ => Ok (EComponent Layer4 ∅).

Definition Layer2 : fcomponent :=
  fun _ => Ok (Consumer (fun context =>
    on ← get_prop context "on";
    Ok (EFragment
          [ EText (if truthy on then "The button is on" else "The button is off");
            EComponent Layer3 ∅ ]))).

Definition Layer1 : fcomponent := fun _ => Ok (EComponent Layer2 ∅).

Definition Usage (c : component) : outcome element :=
  render (Nodes [ On (EText "The button is on");
                  Off (EText "The button is off");
                  EHost "div" ∅ [Button ∅] ]) c.

End Provider.

(** ** Exercise: prop collections *)

Module PropCollections.

(** [state = {on: false}] *)
Definition construct (given : jsobj) : component :=
  mkComponent given JUndefined {[ "on" := JBool false ]} [] [].

Definition toggle : component → component :=
  setState FlipOn (Notify "onToggle").

Definition methods (m : method) (c : component) : component :=
  match m with
  | MToggle => toggle c
  | _ => c
  end.

(** The object handed to the function child. *)
Definition render_arg (c : component) : jsobj :=
  {[ "on" := get (state c) "on"; "toggle" := JMethod MToggle ]}.

Definition render (children : jsobj → outcome element) (c : component) : outcome element :=
  children (render_arg c).

(** The function child of [Usage]: [({on, togglerProps}) => ...]. *)
Definition Usage_child (arg : jsobj) : outcome element :=
  let on := get arg "on" in
  let togglerProps := get arg "togglerProps" in
  Ok (EHost "div" ∅
        [ EHost "Switch" (spread togglerProps ∪ {[ "on" := on ]}) [];
          EHost "hr" ∅ [];
          EHost "button" (spread togglerProps ∪ {[ "aria-label" := JStr "custom-button" ]})
                [EText (if truthy on then "on" else "off")] ]).

(** [<Toggle onToggle={props.onToggle}>] *)
Definition Usage (props : jsobj) : outcome element :=
  render Usage_child (construct {[ "onToggle" := get props "onToggle" ]}).

End PropCollections.

(** ** The five exercises side by side *)

Inductive exercise :=
| ExStateInitializers
| ExHigherOrder
| ExFlexibleCompound
| ExProvider
| ExPropCollections.

Definition construct (x : exercise) : jsobj → component :=
  match x with
  | ExStateInitializers => StateInitializers.construct
  | ExHigherOrder => HigherOrder.construct
  | ExFlexibleCompound => FlexibleCompound.construct
  | ExProvider => Provider.construct
  | ExPropCollections => PropCollections.construct
  end.

Definition toggle (x : exercise) : component → component :=
  match x with
  | ExStateInitializers => StateInitializers.toggle
  | ExHigherOrder => HigherOrder.toggle
  | ExFlexibleCompound => FlexibleCompound.toggle
  | ExProvider => Provider.toggle
  | ExPropCollections => PropCollections.toggle
  end.

Definition methods (x : exercise) : method → component → component :=
  match x with
  | ExStateInitializers => StateInitializers.methods
  | ExHigherOrder => HigherOrder.methods
  | ExFlexibleCompound => FlexibleCompound.methods
  | ExProvider => Provider.methods
  | ExPropCollections => PropCollections.methods
  end.

(** The flag as the component reads it: [this.state.on]. *)
Definition on (c : component) : jsval := get (state c) "on".

(** One invocation of [toggle], processed by React before anything else
    happens (a click on the switch). *)
Definition flip (x : exercise) (c : component) : outcome component :=
  flush (methods x) (toggle x c).

(** One invocation of [reset], likewise. *)
Definition restore (c : component) : outcome component :=
  flush StateInitializers.methods (StateInitializers.reset c).

Fixpoint flips (x : exercise) (n : nat) (c : component) : outcome component :=
  match n with
  | O => Ok c
  | S n' => c' ← flip x c; flips x n' c'
  end.

(** [n] invocations of [toggle] inside one handler: React processes them
    together. *)
Definition toggles (x : exercise) (n : nat) (c : component) : component :=
  Nat.iter n (toggle x) c.

(** The operations a user of the component can trigger. *)
Inductive operation := Flip | Reset.

(** [reset] exists in the state-initializers exercise only. *)
Definition offers (x : exercise) (op : operation) : bool :=
  match op, x with
  | Flip, _ => true
  | Reset, ExStateInitializers => true
  | Reset, _ => false
  end.

Definition perform (x : exercise) (op : operation) (c : component) : outcome component :=
  match op with
  | Flip => flip x c
  | Reset => restore c
  end.

(** The states a component built from [given] props can be in. *)
Inductive reachable (x : exercise) (given : jsobj) : component → Prop :=
| reachable_construct : reachable x given (construct x given)
| reachable_perform op c c' :
    reachable x given c →
    offers x op = true →
    perform x op c = Ok c' →
    reachable x given c'.

(** ** Notions used to state the properties *)

(** What a bound method may change: the queue only. *)
Definition only_enqueues (m : method → component → component) : Prop :=
  ∀ k c, props (m k c) = props c ∧ initialState (m k c) = initialState c
         ∧ state (m k c) = state c.

(** Calls of the caller's function [h] among the recorded ones. *)
Fixpoint fired (h : string) (evs : list event) : nat :=
  match evs with
  | [] => 0
  | Call f _ :: rest => (if String.eqb f h then 1 else 0) + fired h rest
  end.

(** Function values that only the component itself creates: its bound
    methods and the closures of [callAll].  An observer handed in by the
    caller is none of these. *)
Definition reentrant (v : jsval) : bool :=
  match v with
  | JMethod _ | JCallAll _ => true
  | _ => false
  end.

Definition plain_observers (given : jsobj) : Prop :=
  reentrant (get given "onToggle") = false
  ∧ reentrant (get given "onReset") = false.

(** An operation inverts the flag when, wherever it completes, the flag
    afterwards is the negation of the flag before. *)
Definition inverts (x : exercise) (op : operation) : Prop :=
  ∀ given c c',
    plain_observers given →
    reachable x given c →
    perform x op c = Ok c' →
    on c' = js_not (on c).

(** The consumer each exercise with a context exposes. *)
Definition consumer_of (x : exercise) : option ((jsval → outcome element) → element) :=
  match x with
  | ExHigherOrder => Some HigherOrder.Consumer
  | ExFlexibleCompound => Some FlexibleCompound.ToggleConsumer
  | ExProvider => Some Provider.Consumer
  | ExStateInitializers | ExPropCollections => None
  end.

(** The [initialState] field, when it is an object with a flag, holds a
    boolean flag. *)
Definition initial_flag_bool (c : component) : Prop :=
  ∀ i v, initialState c = JObj i → i !! "on" = Some v → is_bool v = true.

(** Props of a caller that sets the initial flag and observes both
    operations, and the components built from them. *)
Definition observed_props : jsobj :=
  {[ "initialOn" := JBool true;
     "onToggle" := JExt "onToggle";
     "onReset" := JExt "onReset" ]}.

Definition observed (x : exercise) : component := construct x observed_props.

(** In the state-initializers exercise the flag starts from the resolved
    [initialOn] prop; this says that prop is a boolean. *)
Definition boolean_initialOn (x : exercise) (given : jsobj) : Prop :=
  x = ExStateInitializers →
  is_bool (get (resolve_default_props StateInitializers.defaultProps given)
               "initialOn") = true.

(** The error the guarded consumers throw. *)
Definition misuse : error :=
  Error "Toggle compound components cannot be rendered outside the Toggle component".

(** *** Batches of updates *)

(** The function a completion callback calls. *)
Definition observer (c : component) (cb : callback) : jsval :=
  match cb with Notify prop => get (props c) prop end.

(** Every update of the queue [q] reports to a function of the caller. *)
Definition caller_observed (c : component) (q : list (updater * callback)) : bool :=
  forallb (λ uc, match observer c (snd uc) with JExt _ => true | _ => false end) q.

(** The calls made for the queue [q] once the flag [v] is committed: one
    per update, in the order of the queue, each with [v]. *)
Fixpoint batch_calls (c : component) (q : list (updater * callback)) (v : jsval)
  : list event :=
  match q with
  | [] => []
  | uc :: rest =>
      match observer c (snd uc) with
      | JExt f => Call f [v] :: batch_calls c rest v
      | _ => batch_calls c rest v
      end
  end.

(** The flag the updates queued so far produce: what the updater of the
    next [setState] receives as the previous flag. *)
Definition queued_flag (c : component) : jsval := get (process_updates c) "on".

Definition observer_prop (op : operation) : string :=
  match op with Flip => "onToggle" | Reset => "onReset" end.

(** Invoking an operation only enqueues its update. *)
Definition request (x : exercise) (op : operation) (c : component) : component :=
  match op with
  | Flip => toggle x c
  | Reset => StateInitializers.reset c
  end.

(** The operations invoked one after the other inside one handler. *)
Definition requests (x : exercise) (ops : list operation) (c : component) : component :=
  foldl (λ c op, request x op c) c ops.

(** The update an operation enqueues. *)
Definition update_of (op : operation) : updater * callback :=
  match op with
  | Flip => (FlipOn, Notify "onToggle")
  | Reset => (InitialState, Notify "onReset")
  end.

(** The flag after [n] flips in a row from the flag [v]. *)
Definition flipped (n : nat) (v : jsval) : jsval :=
  match n with
  | O => v
  | S _ => JBool (if Nat.even n then truthy v else negb (truthy v))
  end.

(** A caller that passes a string as [initialOn]. *)
Definition string_props : jsobj :=
  {[ "initialOn" := JStr "yes"; "onToggle" := JExt "onToggle" ]}.

(** ** Notions used to state the further properties *)

(** [typeof v === 'function'] *)
Definition callable (v : jsval) : bool :=
  match v with
  | JExt _ | JMethod _ | JCallAll _ => true
  | _ => false
  end.

(** An entry of [callAll] that is falsy or a function of the caller. *)
Definition external_or_falsy (v : jsval) : bool :=
  match v with
  | JExt _ => true
  | _ => negb (truthy v)
  end.

(** The calls the caller's functions among [fns] receive, in order. *)
Fixpoint external_calls (fns : list jsval) (args : list jsval) : list event :=
  match fns with
  | [] => []
  | JExt h :: rest => Call h args :: external_calls rest args
  | _ :: rest => external_calls rest args
  end.

Definition with_calls (evs : list event) (c : component) : component :=
  mkComponent (props c) (initialState c) (state c) (pending c) evs.

(** What [n] flips in a row report to the observer [f], from flag [v]. *)
Fixpoint notifications (f : string) (v : jsval) (n : nat) : list event :=
  match n with
  | O => []
  | S n' => Call f [js_not v] :: notifications f (js_not v) n'
  end.

(** The text the layers and the compound components display. *)
Definition message (flag : jsval) : string :=
  if truthy flag then "The button is on" else "The button is off".

(** The [Toggle] element each [Usage] creates from its own parameters.
    Four of them default [onToggle] to a logging function; the
    prop-collections one passes [props.onToggle] on as it is. *)
Definition Usage_toggle (x : exercise) (given : jsobj) : component :=
  match x with
  | ExStateInitializers => StateInitializers.Usage given
  | ExHigherOrder | ExFlexibleCompound =>
      construct x {[ "onToggle" :=
                       get (resolve_default_props
                              {[ "onToggle" := JExt "console.log onToggle" ]} given)
                           "onToggle" ]}
  | ExProvider =>
      construct x {[ "onToggle" :=
                       get (resolve_default_props
                              {[ "onToggle" := JExt "console.log onToggle" ]} given)
                           "onToggle";
                     "test" := JStr "spencer" ]}
  | ExPropCollections =>
      construct x {[ "onToggle" := get given "onToggle" ]}
  end.

(** * Properties *)

(** ** Objects *)

Lemma get_insert (o : jsobj) (k : string) (v : jsval) :
  get (<[k:=v]> o) k = v.
Proof. unfold get. by rewrite lookup_insert_eq. Qed.

Lemma get_singleton (k : string) (v : jsval) :
  get {[ k := v ]} k = v.
Proof. unfold get. by rewrite lookup_singleton_eq. Qed.

Lemma get_union_singleton (o : jsobj) (k : string) (v : jsval) :
  get ({[ k := v ]} ∪ o) k = v.
Proof. rewrite <- insert_union_singleton_l. apply get_insert. Qed.

Lemma get_lookup (o : jsobj) (k : string) (v : jsval) :
  o !! k = Some v → get o k = v.
Proof. intros H. unfold get. by rewrite H. Qed.

Lemma on_insert p i (st : jsobj) q cs (v : jsval) :
  on (mkComponent p i (<["on" := v]> st) q cs) = v.
Proof. apply get_insert. Qed.

Lemma on_union p i (st : jsobj) q cs (v : jsval) :
  on (mkComponent p i ({[ "on" := v ]} ∪ st) q cs) = v.
Proof. unfold on. cbn [state]. rewrite <- insert_union_singleton_l. apply get_insert. Qed.

Lemma js_not_bool (b : bool) : js_not (JBool b) = JBool (negb b).
Proof. reflexivity. Qed.

(** ** [setState] and the update queue *)

Lemma toggle_same (x : exercise) :
  toggle x = setState FlipOn (Notify "onToggle").
Proof. by destruct x. Qed.

Lemma assign_flip (st : jsobj) :
  assign st (JObj {[ "on" := js_not (get st "on") ]})
  = <["on" := js_not (get st "on")]> st.
Proof. simpl. by rewrite insert_union_singleton_l. Qed.

Lemma process_updates_setState (u : updater) (cb : callback) (c : component) :
  process_updates (setState u cb c)
  = assign (process_updates c) (run_updater c u (process_updates c)).
Proof.
  unfold process_updates, setState. simpl.
  rewrite foldl_snoc. simpl.
  by destruct u.
Qed.

Lemma process_updates_settled (c : component) :
  pending c = [] → process_updates c = state c.
Proof. intros H. unfold process_updates. by rewrite H. Qed.

Lemma process_updates_toggle (x : exercise) (c : component) :
  process_updates (toggle x c)
  = <["on" := js_not (get (process_updates c) "on")]> (process_updates c).
Proof.
  rewrite toggle_same, process_updates_setState. simpl run_updater.
  apply assign_flip.
Qed.

Lemma toggles_S (x : exercise) (n : nat) (c : component) :
  toggles x (S n) c = toggle x (toggles x n c).
Proof. reflexivity. Qed.

Lemma process_updates_toggles (x : exercise) (n : nat) (c : component) :
  pending c = [] →
  get (process_updates (toggles x n c)) "on" = Nat.iter n js_not (on c).
Proof.
  intros Hq. induction n as [|n IH].
  - simpl. by rewrite process_updates_settled.
  - rewrite toggles_S, process_updates_toggle, get_insert, IH. reflexivity.
Qed.

(** A settled component with an observer: one [toggle] processed. *)
Lemma flip_settled (x : exercise) (c : component) (f : string) :
  pending c = [] →
  props c !! "onToggle" = Some (JExt f) →
  flip x c = Ok (mkComponent (props c) (initialState c)
                             (<["on" := js_not (on c)]> (state c)) []
                             (calls c ++ [Call f [js_not (on c)]])).
Proof.
  intros Hq Hf. unfold flip, flush.
  rewrite process_updates_toggle, (process_updates_settled c Hq).
  rewrite toggle_same. unfold setState. simpl. rewrite Hq. simpl.
  rewrite (get_lookup _ _ _ Hf). simpl.
  unfold record_call, on. simpl. by rewrite get_insert.
Qed.

Lemma restore_settled (c : component) (g : string) (i : jsobj) :
  pending c = [] →
  props c !! "onReset" = Some (JExt g) →
  initialState c = JObj i →
  restore c = Ok (mkComponent (props c) (initialState c) (i ∪ state c) []
                              (calls c ++ [Call g [get (i ∪ state c) "on"]])).
Proof.
  intros Hq Hg Hi. unfold restore, flush, StateInitializers.reset.
  rewrite process_updates_setState, (process_updates_settled c Hq).
  simpl run_updater. rewrite Hi. simpl assign.
  unfold setState. simpl. rewrite Hq. simpl.
  rewrite (get_lookup _ _ _ Hg). simpl.
  unfold record_call. simpl. by rewrite Hi.
Qed.

(** ** Calls never touch the state directly *)

(** Induction on values that descends into the functions held by a
    [callAll] closure. *)
Lemma jsval_callable_ind (P : jsval → Prop) :
  (∀ v, (∀ fns, v ≠ JCallAll fns) → P v) →
  (∀ fns, Forall P fns → P (JCallAll fns)) →
  ∀ v, P v.
Proof.
  intros Hbase Hcall. fix IH 1. intros v.
  destruct v as [ | | b | n | s | name | m | fns | o ];
    try (apply Hbase; intros ?; discriminate).
  apply Hcall.
  revert fns. fix IHl 1. intros [|fn rest].
  - constructor.
  - constructor; [apply IH | apply IHl].
Qed.

Lemma methods_only_enqueue (x : exercise) : only_enqueues (methods x).
Proof. intros k c. by destruct x, k. Qed.

Lemma invoke_frame (m : method → component → component) (f : jsval)
      (args : list jsval) (c c' : component) :
  only_enqueues m →
  invoke m f args c = Ok c' →
  props c' = props c ∧ initialState c' = initialState c ∧ state c' = state c.
Proof.
  intros Hm. revert c c'. induction f as [v Hv | fns IH] using jsval_callable_ind;
    intros c c'.
  - destruct v; simpl; try discriminate.
    + intros [= <-]. done.
    + intros [= <-]. apply Hm.
    + by destruct (Hv fns).
  - simpl. revert c. induction IH as [|fn rest Hfn _ IHrest]; intros c.
    + intros [= <-]. done.
    + destruct (truthy fn); [|apply IHrest].
      destruct (invoke m fn args c) as [c1|e] eqn:E1; simpl; [|discriminate].
      intros H2. destruct (Hfn _ _ E1) as (<- & <- & <-). by apply IHrest.
Qed.

Lemma run_callbacks_frame (m : method → component → component)
      (cbs : list callback) (c c' : component) :
  only_enqueues m →
  run_callbacks m cbs c = Ok c' →
  props c' = props c ∧ initialState c' = initialState c ∧ state c' = state c.
Proof.
  intros Hm. revert c. induction cbs as [|[prop] rest IH]; intros c; simpl.
  - intros [= <-]. done.
  - destruct (invoke m _ _ c) as [c1|e] eqn:E1; simpl; [|discriminate].
    intros H2. destruct (invoke_frame _ _ _ _ _ Hm E1) as (<- & <- & <-).
    by apply IH.
Qed.

Lemma flush_frame (m : method → component → component) (c c' : component) :
  only_enqueues m →
  flush m c = Ok c' →
  props c' = props c ∧ initialState c' = initialState c
  ∧ state c' = process_updates c.
Proof.
  intros Hm H. unfold flush in H.
  by destruct (run_callbacks_frame _ _ _ _ Hm H) as (-> & -> & ->).
Qed.

Lemma perform_frame (x : exercise) (op : operation) (c c' : component) :
  perform x op c = Ok c' →
  props c' = props c ∧ initialState c' = initialState c.
Proof.
  destruct op; simpl; unfold flip, restore; intros H.
  - destruct (flush_frame _ _ _ (methods_only_enqueue x) H) as (-> & -> & _).
    rewrite toggle_same. done.
  - destruct (flush_frame _ _ _ (methods_only_enqueue ExStateInitializers) H)
      as (-> & -> & _).
    done.
Qed.

Lemma reachable_frame (x : exercise) (given : jsobj) (c : component) :
  reachable x given c →
  props c = props (construct x given)
  ∧ initialState c = initialState (construct x given).
Proof.
  induction 1 as [|op c c' _ [IHp IHi] _ Hop]; [done|].
  destruct (perform_frame _ _ _ _ Hop) as [-> ->]. done.
Qed.

(** ** Sequences of flips *)

Lemma iter_js_not_bool (n : nat) (b : bool) :
  Nat.iter n js_not (JBool b) = JBool (if Nat.even n then b else negb b).
Proof.
  induction n as [|n IH]; [done|].
  replace (Nat.iter (S n) js_not (JBool b))
    with (js_not (Nat.iter n js_not (JBool b))) by reflexivity.
  rewrite IH, js_not_bool, Nat.even_succ, <- Nat.negb_even.
  destruct (Nat.even n); simpl; [done|]. by rewrite negb_involutive.
Qed.

Lemma flips_settled (x : exercise) (n : nat) (c : component) (f : string) :
  pending c = [] →
  props c !! "onToggle" = Some (JExt f) →
  ∃ c', flips x n c = Ok c'
        ∧ pending c' = [] ∧ props c' = props c
        ∧ initialState c' = initialState c
        ∧ on c' = Nat.iter n js_not (on c).
Proof.
  revert c. induction n as [|n IH]; intros c Hq Hf.
  - by exists c.
  - simpl flips. rewrite (flip_settled x c f Hq Hf). simpl.
    edestruct (IH (mkComponent (props c) (initialState c)
                               (<["on" := js_not (on c)]> (state c)) []
                               (calls c ++ [Call f [js_not (on c)]])))
      as (c' & -> & Hq' & Hp' & Hi' & Hon'); [done..|].
    exists c'. repeat split; try done.
    rewrite Hon'. unfold on at 1. cbn [state]. rewrite get_insert.
    by rewrite <- Nat.iter_succ_r.
Qed.

(** Props of the state-initializers component that have no default. *)
Lemma construct_props_other (given : jsobj) (k : string) :
  k ≠ "initialOn" →
  props (StateInitializers.construct given) !! k = given !! k.
Proof.
  intros Hk. simpl. unfold resolve_default_props.
  rewrite lookup_merge. unfold StateInitializers.defaultProps.
  rewrite lookup_singleton_ne by done. by destruct (given !! k).
Qed.

Lemma construct_on (given : jsobj) :
  on (StateInitializers.construct given)
  = get (resolve_default_props StateInitializers.defaultProps given) "initialOn".
Proof. unfold on, StateInitializers.construct. cbn [state]. apply get_singleton. Qed.

Lemma fired_app (h : string) (l k : list event) :
  fired h (l ++ k) = fired h l + fired h k.
Proof.
  induction l as [|[f args] l IH]; [done|].
  simpl. rewrite IH. lia.
Qed.

Lemma fired_snoc (h f : string) (args : list jsval) (l : list event) :
  fired h (l ++ [Call f args]) = fired h l + (if String.eqb f h then 1 else 0).
Proof. rewrite fired_app. simpl. lia. Qed.

(** ** Reset *)

(** C2.  In the state-initializers exercise, after [reset] the flag is the
    value captured at construction, the resolved [initialOn] prop, however
    many flips came before. *)
Theorem reset_restores_initial (given : jsobj) (f g : string) (n : nat) :
  given !! "onToggle" = Some (JExt f) →
  given !! "onReset" = Some (JExt g) →
  ∃ c', (c ← flips ExStateInitializers n (StateInitializers.construct given);
         restore c) = Ok c'
        ∧ on c' = on (StateInitializers.construct given)
        ∧ on c' = get (resolve_default_props StateInitializers.defaultProps given)
                      "initialOn".
Proof.
  intros Hf Hg. set (c0 := StateInitializers.construct given).
  destruct (flips_settled ExStateInitializers n c0 f) as (c & -> & Hq & Hp & Hi & _).
  { done. }
  { unfold c0. by rewrite construct_props_other. }
  assert (Hg' : props c !! "onReset" = Some (JExt g)).
  { rewrite Hp. unfold c0. by rewrite construct_props_other. }
  assert (Hi' : initialState c = JObj {[ "on" := on c0 ]}).
  { rewrite Hi. unfold c0, StateInitializers.construct. cbn [initialState].
    by rewrite <- construct_on. }
  eexists. split; [exact (restore_settled c g _ Hq Hg' Hi')|].
  assert (H : on (mkComponent (props c) (initialState c)
                    ({[ "on" := on c0 ]} ∪ state c) []
                    (calls c ++ [Call g [get ({[ "on" := on c0 ]} ∪ state c) "on"]]))
              = on c0).
  { unfold on at 1. cbn [state]. rewrite <- insert_union_singleton_l.
    apply get_insert. }
  split; [exact H|]. rewrite H. apply construct_on.
Qed.

Lemma reset_restores_initial_witness :
  ∃ c', (c ← flips ExStateInitializers 5 (StateInitializers.construct observed_props);
         restore c) = Ok c'
        ∧ on c' = JBool true.
Proof.
  destruct (reset_restores_initial observed_props "onToggle" "onReset" 5)
    as (c' & H & _ & Hon); [vm_compute; reflexivity | vm_compute; reflexivity |].
  exists c'. split; [exact H|]. rewrite Hon. vm_compute. reflexivity.
Defined.

(** ** Observers that do not call back into the component *)

Lemma construct_props (x : exercise) (given : jsobj) (k : string) :
  k ≠ "initialOn" →
  props (construct x given) !! k = given !! k.
Proof. intros Hk. destruct x; try done. by apply construct_props_other. Qed.

Lemma get_ext (o : jsobj) (k f : string) :
  get o k = JExt f → o !! k = Some (JExt f).
Proof. unfold get. destruct (o !! k); simpl; [by intros ->|discriminate]. Qed.

Lemma flip_plain (x : exercise) (c c' : component) :
  pending c = [] →
  reentrant (get (props c) "onToggle") = false →
  flip x c = Ok c' →
  ∃ f, props c !! "onToggle" = Some (JExt f).
Proof.
  intros Hq Hre. unfold flip, flush.
  rewrite toggle_same. unfold setState. cbn [pending with_pending]. rewrite Hq.
  simpl. destruct (get (props c) "onToggle") eqn:E; simpl; try discriminate.
  intros _. eexists. by apply get_ext.
Qed.

Lemma restore_plain (c c' : component) :
  pending c = [] →
  reentrant (get (props c) "onReset") = false →
  restore c = Ok c' →
  ∃ g, props c !! "onReset" = Some (JExt g).
Proof.
  intros Hq Hre. unfold restore, flush, StateInitializers.reset, setState.
  cbn [pending with_pending]. rewrite Hq.
  simpl. destruct (get (props c) "onReset") eqn:E; simpl; try discriminate.
  intros _. eexists. by apply get_ext.
Qed.

Lemma construct_initialState (given : jsobj) :
  initialState (StateInitializers.construct given)
  = JObj {[ "on" := on (StateInitializers.construct given) ]}.
Proof. by rewrite construct_on. Qed.

Lemma reachable_settled (x : exercise) (given : jsobj) (c : component) :
  plain_observers given →
  reachable x given c →
  pending c = [].
Proof.
  intros [Ht Hr]. induction 1 as [|op c c' Hc IH Hoff Hop]; [by destruct x|].
  destruct (reachable_frame _ _ _ Hc) as [Hp Hi].
  destruct op; simpl in Hop.
  - destruct (flip_plain x c c' IH) as [f Hf]; [|done|].
    { rewrite Hp. unfold get. by rewrite construct_props. }
    rewrite (flip_settled x c f IH Hf) in Hop. by injection Hop as <-.
  - destruct x; try discriminate.
    destruct (restore_plain c c' IH) as [g Hg]; [|done|].
    { rewrite Hp. unfold get. by rewrite (construct_props ExStateInitializers). }
    rewrite (restore_settled c g {[ "on" := on (StateInitializers.construct given) ]}
               IH Hg) in Hop.
    + by injection Hop as <-.
    + rewrite Hi. apply construct_initialState.
Qed.

(** ** The flag is a boolean *)

Lemma get_union_bool (i st : jsobj) :
  (∀ v, i !! "on" = Some v → is_bool v = true) →
  is_bool (get st "on") = true →
  is_bool (get (i ∪ st) "on") = true.
Proof.
  intros Hi Hst. unfold get.
  destruct (i !! "on") as [v|] eqn:E.
  - rewrite (lookup_union_Some_l _ _ _ _ E). simpl. by apply Hi.
  - by rewrite lookup_union_r.
Qed.

Lemma updates_keep_bool (c : component) (q : list (updater * callback)) (st : jsobj) :
  initial_flag_bool c →
  is_bool (get st "on") = true →
  is_bool (get (foldl (λ st uc, assign st (run_updater c (fst uc) st)) st q) "on")
  = true.
Proof.
  intros Hi. revert st. induction q as [|[u cb] q IH]; intros st Hst; [done|].
  simpl. apply IH. destruct u; simpl.
  - by rewrite get_union_singleton.
  - destruct (initialState c) as [ | | | | | | | |i] eqn:E; simpl; try done.
    apply get_union_bool; [|done]. intros v. by apply Hi.
Qed.

Lemma perform_state (x : exercise) (op : operation) (c c' : component) :
  perform x op c = Ok c' →
  ∃ u cb, state c' = process_updates (setState u cb c).
Proof.
  destruct op; simpl; unfold flip, restore; intros H.
  - destruct (flush_frame _ _ _ (methods_only_enqueue x) H) as (_ & _ & ->).
    rewrite toggle_same. eauto.
  - destruct (flush_frame _ _ _ (methods_only_enqueue ExStateInitializers) H)
      as (_ & _ & ->).
    unfold StateInitializers.reset. eauto.
Qed.

Lemma construct_initial_flag_bool (x : exercise) (given : jsobj) :
  is_bool (on (construct x given)) = true →
  initial_flag_bool (construct x given).
Proof.
  intros Hb i v. destruct x; simpl; try discriminate.
  - intros [= <-]. rewrite lookup_singleton_eq. intros [= <-].
    by rewrite construct_on in Hb.
  - intros [= <-]. rewrite lookup_insert_eq. by intros [= <-].
Qed.

Lemma construct_bool (x : exercise) (given : jsobj) :
  boolean_initialOn x given → is_bool (on (construct x given)) = true.
Proof.
  intros Hb. destruct x; try done.
  simpl construct. rewrite construct_on. by apply Hb.
Qed.

Lemma reachable_bool (x : exercise) (given : jsobj) (c : component) :
  boolean_initialOn x given →
  reachable x given c →
  is_bool (on c) = true.
Proof.
  intros Hb%construct_bool. induction 1 as [|op c c' Hc IH Hoff Hop]; [done|].
  destruct (reachable_frame _ _ _ Hc) as [_ Hi].
  destruct (perform_state _ _ _ _ Hop) as (u & cb & Hst).
  unfold on. rewrite Hst. unfold process_updates.
  apply updates_keep_bool; [|exact IH].
  intros i v. cbn [initialState setState with_pending]. rewrite Hi.
  by apply construct_initial_flag_bool.
Qed.

Lemma flip_inverts (x : exercise) : inverts x Flip.
Proof.
  intros given c c' Hplain Hc Hop. simpl in Hop.
  pose proof (reachable_settled _ _ _ Hplain Hc) as Hq.
  destruct (reachable_frame _ _ _ Hc) as [Hp _].
  destruct (flip_plain x c c' Hq) as [f Hf]; [|done|].
  { rewrite Hp. unfold get. rewrite construct_props by done. apply Hplain. }
  rewrite (flip_settled x c f Hq Hf) in Hop. injection Hop as <-.
  apply on_insert.
Qed.

Lemma reset_does_not_invert : ¬ inverts ExStateInitializers Reset.
Proof.
  intros H.
  specialize (H {[ "onReset" := JExt "onReset" ]}
                (StateInitializers.construct {[ "onReset" := JExt "onReset" ]})
                (mkComponent {[ "onReset" := JExt "onReset"; "initialOn" := JBool false ]}
                             (JObj {[ "on" := JBool false ]})
                             {[ "on" := JBool false ]} []
                             [Call "onReset" [JBool false]])).
  assert (Hfalse : JBool false = JBool true); [|discriminate].
  apply H.
  - split; reflexivity.
  - apply (reachable_construct ExStateInitializers).
  - vm_compute. reflexivity.
Qed.

(** C8, as the code has it.  In every exercise, and provided the
    [initialOn] prop of the state-initializers exercise resolves to a
    boolean, the flag is a boolean in every reachable state (after
    construction and after any sequence of flips and resets); and among the
    operations an exercise offers, flip is the only one that inverts the
    flag. *)
Theorem flag_boolean_and_inverted_by_flip_only
        (x : exercise) (given : jsobj) (c : component) :
  boolean_initialOn x given →
  reachable x given c →
  is_bool (on c) = true
  ∧ (∀ op, offers x op = true → (inverts x op ↔ op = Flip)).
Proof.
  intros Hb Hc. split; [by eapply reachable_bool|].
  intros op Hoff. split.
  - destruct op; [done|]. destruct x; try discriminate.
    intros H. by destruct (reset_does_not_invert H).
  - intros ->. apply flip_inverts.
Qed.

Lemma flag_boolean_and_inverted_by_flip_only_witness :
  is_bool (on (observed ExStateInitializers)) = true
  ∧ (inverts ExStateInitializers Reset ↔ Reset = Flip).
Proof.
  destruct (flag_boolean_and_inverted_by_flip_only
              ExStateInitializers observed_props (observed ExStateInitializers))
    as [Hbool Hops];
    [intros _; vm_compute; reflexivity | apply reachable_construct |].
  split; [exact Hbool | apply Hops; reflexivity].
Defined.

(** C8 as stated fails: a caller of the state-initializers exercise can
    pass a string as [initialOn], and the flag then holds it from
    construction on. *)
Lemma flag_not_boolean_for_string_initialOn :
  reachable ExStateInitializers {[ "initialOn" := JStr "yes" ]}
            (StateInitializers.construct {[ "initialOn" := JStr "yes" ]})
  ∧ on (StateInitializers.construct {[ "initialOn" := JStr "yes" ]}) = JStr "yes"
  ∧ is_bool (on (StateInitializers.construct {[ "initialOn" := JStr "yes" ]})) = false.
Proof.
  split; [apply (reachable_construct ExStateInitializers)|].
  split; vm_compute; reflexivity.
Qed.

(** ** Construction *)

Lemma resolve_initialOn (given : jsobj) :
  get (resolve_default_props StateInitializers.defaultProps given) "initialOn"
  = match given !! "initialOn" with
    | None | Some JUndefined => JBool false
    | Some v => v
    end.
Proof.
  unfold get, resolve_default_props, StateInitializers.defaultProps.
  rewrite lookup_merge, lookup_singleton_eq.
  by destruct (given !! "initialOn") as [[]|].
Qed.

(** C6, as the code has it.  The state is created when the component is
    constructed.  In the state-initializers exercise the initial flag is
    the caller's [initialOn] prop, and [false] when that prop is absent or
    [undefined]; every other exercise starts from [false] whatever props it
    is given. *)
Theorem initial_flag (given : jsobj) :
  on (StateInitializers.construct given)
  = match given !! "initialOn" with
    | None | Some JUndefined => JBool false
    | Some v => v
    end
  ∧ (∀ x, x ≠ ExStateInitializers → on (construct x given) = JBool false)
  ∧ (∀ x, pending (construct x given) = [] ∧ calls (construct x given) = []).
Proof.
  split; [by rewrite construct_on, resolve_initialOn|]. split.
  - intros x Hx. by destruct x.
  - intros x. by destruct x.
Qed.

(** C6 as stated fails: the prop-collections exercise ignores an
    [initialOn] prop and starts from [false]. *)
Lemma initialOn_ignored_by_prop_collections :
  on (construct ExPropCollections {[ "initialOn" := JBool true ]}) = JBool false
  ∧ on (construct ExPropCollections {[ "initialOn" := JBool true ]}) ≠ JBool true.
Proof. split; [vm_compute; reflexivity | vm_compute; discriminate]. Qed.

(** ** Consuming the context *)

Lemma get_delete (o : jsobj) (k : string) : get (delete k o) k = JUndefined.
Proof. unfold get. by rewrite lookup_delete_eq. Qed.

Lemma get_insert_other (o : jsobj) (k k' : string) (v : jsval) :
  k ≠ k' → get (<[k:=v]> o) k' = get o k'.
Proof. intros Hne. unfold get. by rewrite lookup_insert_ne. Qed.

Lemma guarded_outside (env : jsobj) (child : jsval → outcome element) :
  render_element (delete FlexibleCompound.ToggleContext env)
                 (FlexibleCompound.ToggleConsumer child) = Throw misuse
  ∧ render_element (delete Provider.ToggleContext env)
                   (Provider.Consumer child) = Throw misuse.
Proof.
  split.
  - unfold FlexibleCompound.ToggleConsumer. cbn [render_element].
    by rewrite get_delete.
  - unfold Provider.Consumer, Provider.ToggleConsumer. cbn [render_element].
    by rewrite get_delete.
Qed.

(** C3, as the code has it.  The consumers of the flexible-compound and
    provider-pattern exercises, and the [On], [Off] and [Button] components
    built on them, throw the same error whenever no provider of their own
    context encloses them, whatever else surrounds them: outside every
    [Toggle], and inside the [Toggle] of another exercise.  The consumer of
    the higher-order-components exercise is the bare context consumer:
    without an enclosing provider of its context it calls its child with
    [undefined]. *)
Theorem consumer_outside_provider (env : jsobj) (child : jsval → outcome element)
        (children : element) (attrs : jsobj) :
  (render_element (delete FlexibleCompound.ToggleContext env)
                  (FlexibleCompound.ToggleConsumer child) = Throw misuse
   ∧ render_element (delete Provider.ToggleContext env)
                    (Provider.Consumer child) = Throw misuse)
  ∧ (render_element (delete FlexibleCompound.ToggleContext env)
                    (FlexibleCompound.On children) = Throw misuse
     ∧ render_element (delete FlexibleCompound.ToggleContext env)
                      (FlexibleCompound.Off children) = Throw misuse
     ∧ render_element (delete FlexibleCompound.ToggleContext env)
                      (FlexibleCompound.Button attrs) = Throw misuse
     ∧ render_element (delete Provider.ToggleContext env)
                      (Provider.On children) = Throw misuse
     ∧ render_element (delete Provider.ToggleContext env)
                      (Provider.Off children) = Throw misuse
     ∧ render_element (delete Provider.ToggleContext env)
                      (Provider.Button attrs) = Throw misuse)
  ∧ (render_root (FlexibleCompound.ToggleConsumer child) = Throw misuse
     ∧ render_root (Provider.Consumer child) = Throw misuse)
  ∧ (∀ c, render_root (HigherOrder.render [FlexibleCompound.ToggleConsumer child] c)
          = Throw misuse
          ∧ render_root (HigherOrder.render [Provider.Consumer child] c)
            = Throw misuse
          ∧ render_root (FlexibleCompound.render [Provider.Consumer child] c)
            = Throw misuse
          ∧ (e ← Provider.render (Provider.Nodes [FlexibleCompound.ToggleConsumer child]) c;
             render_root e)
            = Throw misuse)
  ∧ render_element (delete HigherOrder.ToggleContext env) (HigherOrder.Consumer child)
    = (e ← child JUndefined; render_element (delete HigherOrder.ToggleContext env) e).
Proof.
  split; [apply guarded_outside|]. split.
  { unfold FlexibleCompound.On, FlexibleCompound.Off, FlexibleCompound.Button,
      Provider.On, Provider.Off, Provider.Button.
    repeat split; apply guarded_outside. }
  split; [by split|]. split; [by intros c|].
  unfold HigherOrder.Consumer. cbn [render_element]. by rewrite get_delete.
Qed.

(** C3 as stated fails in the higher-order-components exercise: outside
    any provider its consumer, and a component wrapped by [withToggle],
    render without an error; the child sees [undefined]. *)
Lemma bare_consumer_outside_provider_renders :
  consumer_of ExHigherOrder = Some HigherOrder.Consumer
  ∧ render_root (HigherOrder.Consumer
                   (λ context, Ok (EText (if truthy context then "inside" else "outside"))))
    = Ok [DText "outside"]
  ∧ render_root (EComponent
                   (HigherOrder.withToggle (λ props, Ok (EText "wrapped"))) ∅)
    = Ok [DText "wrapped"].
Proof. repeat split. Qed.

(** ** The compound components *)

Lemma on_renders (k : string) (env o : jsobj) (children : element) :
  (e' ← (if negb (truthy (get (<[k := JObj o]> env) k))
         then Throw misuse
         else on ← get_prop (get (<[k := JObj o]> env) k) "on";
              Ok (if truthy on then children else ENull));
   render_element (<[k := JObj o]> env) e')
  = (if truthy (get o "on")
     then render_element (<[k := JObj o]> env) children else Ok []).
Proof. rewrite get_insert. simpl. by destruct (truthy (get o "on")). Qed.

Lemma off_renders (k : string) (env o : jsobj) (children : element) :
  (e' ← (if negb (truthy (get (<[k := JObj o]> env) k))
         then Throw misuse
         else on ← get_prop (get (<[k := JObj o]> env) k) "on";
              Ok (if negb (truthy on) then children else ENull));
   render_element (<[k := JObj o]> env) e')
  = (if truthy (get o "on")
     then Ok [] else render_element (<[k := JObj o]> env) children).
Proof. rewrite get_insert. simpl. by destruct (truthy (get o "on")). Qed.

(** C9.  In the flexible-compound and provider-pattern exercises, under a
    provider whose value is the object [o], whatever else surrounds it,
    [Toggle.On] renders its children when [o.on] is true and nothing
    otherwise, [Toggle.Off] renders its children when [o.on] is false and
    nothing otherwise; so one of the two renders nothing.  Under the
    provider of a flexible-compound [Toggle] the choice follows the flag of
    the component. *)
Theorem on_off_exclusive (env o : jsobj) (children : element) :
  (render_element (<[FlexibleCompound.ToggleContext := JObj o]> env)
                  (FlexibleCompound.On children)
   = (if truthy (get o "on")
      then render_element (<[FlexibleCompound.ToggleContext := JObj o]> env) children
      else Ok [])
   ∧ render_element (<[FlexibleCompound.ToggleContext := JObj o]> env)
                    (FlexibleCompound.Off children)
     = (if truthy (get o "on")
        then Ok []
        else render_element (<[FlexibleCompound.ToggleContext := JObj o]> env) children))
  ∧ (render_element (<[Provider.ToggleContext := JObj o]> env) (Provider.On children)
     = (if truthy (get o "on")
        then render_element (<[Provider.ToggleContext := JObj o]> env) children
        else Ok [])
     ∧ render_element (<[Provider.ToggleContext := JObj o]> env) (Provider.Off children)
       = (if truthy (get o "on")
          then Ok []
          else render_element (<[Provider.ToggleContext := JObj o]> env) children))
  ∧ (render_element (<[FlexibleCompound.ToggleContext := JObj o]> env)
                    (FlexibleCompound.On children) = Ok []
     ∨ render_element (<[FlexibleCompound.ToggleContext := JObj o]> env)
                      (FlexibleCompound.Off children) = Ok [])
  ∧ (render_element (<[Provider.ToggleContext := JObj o]> env)
                    (Provider.On children) = Ok []
     ∨ render_element (<[Provider.ToggleContext := JObj o]> env)
                      (Provider.Off children) = Ok [])
  ∧ (∀ c a b,
       render_root (FlexibleCompound.render
                      [FlexibleCompound.On (EText a); FlexibleCompound.Off (EText b)] c)
       = Ok [DText (if truthy (on c) then a else b)]).
Proof.
  pose proof (on_renders FlexibleCompound.ToggleContext env o children) as HOn.
  pose proof (off_renders FlexibleCompound.ToggleContext env o children) as HOff.
  pose proof (on_renders Provider.ToggleContext env o children) as HOn'.
  pose proof (off_renders Provider.ToggleContext env o children) as HOff'.
  split; [by split|]. split; [by split|].
  split; [|split; [|]].
  - destruct (truthy (get o "on")); [right; exact HOff | left; exact HOn].
  - destruct (truthy (get o "on")); [right; exact HOff' | left; exact HOn'].
  - clear. intros c a b. unfold render_root, FlexibleCompound.render, on. simpl.
    rewrite !get_insert. simpl. rewrite !get_insert.
    by destruct (truthy (get (state c) "on")).
Qed.

(** ** Prop getters and prop collections *)

Lemma getTogglerProps_lookup (arg : jsobj) (c : component) (k : string) :
  StateInitializers.getTogglerProps (Some arg) c !! k
  = if decide (k = "onClick")
    then Some (StateInitializers.callAll [get arg "onClick"; JMethod MToggle])
    else match arg !! k with
         | Some v => Some v
         | None => if decide (k = "aria-pressed") then Some (on c) else None
         end.
Proof.
  unfold StateInitializers.getTogglerProps. simpl default.
  case_decide as Hk.
  - subst k. rewrite lookup_union_r by apply lookup_delete_eq.
    rewrite lookup_insert_ne by done. by rewrite lookup_singleton_eq.
  - rewrite lookup_union, lookup_delete_ne by done.
    destruct (arg !! k) as [v|] eqn:E.
    + by rewrite union_Some_l.
    + rewrite (left_id None _). case_decide as Hk'.
      * subst k. by rewrite lookup_insert_eq.
      * rewrite lookup_insert_ne by done. by rewrite lookup_singleton_ne.
Qed.

Lemma callAll_onClick_toggle (h : jsval) (args : list jsval) (c : component) :
  invoke StateInitializers.methods
         (StateInitializers.callAll [h; JMethod MToggle]) args c
  = if truthy h
    then c' ← invoke StateInitializers.methods h args c;
         Ok (StateInitializers.toggle c')
    else Ok (StateInitializers.toggle c).
Proof.
  simpl. destruct (truthy h); [|done].
  by destruct (invoke StateInitializers.methods h args c).
Qed.

(** C10.  For every argument object, the props [getTogglerProps] returns
    hold ['aria-pressed'] set to the current flag, an [onClick] that calls
    the caller's [onClick] (when it is not falsy) and then [toggle], each
    with the arguments of the click, and every other property of the
    argument, which takes precedence over the defaults. *)
Theorem getTogglerProps_result (arg : jsobj) (c : component) :
  (∀ k, StateInitializers.getTogglerProps (Some arg) c !! k
        = if decide (k = "onClick")
          then Some (StateInitializers.callAll [get arg "onClick"; JMethod MToggle])
          else match arg !! k with
               | Some v => Some v
               | None => if decide (k = "aria-pressed") then Some (on c) else None
               end)
  ∧ (arg !! "aria-pressed" = None →
     get (StateInitializers.getTogglerProps (Some arg) c) "aria-pressed" = on c)
  ∧ (∀ args c0,
       invoke StateInitializers.methods
              (get (StateInitializers.getTogglerProps (Some arg) c) "onClick") args c0
       = if truthy (get arg "onClick")
         then c1 ← invoke StateInitializers.methods (get arg "onClick") args c0;
              Ok (StateInitializers.toggle c1)
         else Ok (StateInitializers.toggle c0))
  ∧ (∀ h args c0,
       arg !! "onClick" = Some (JExt h) →
       invoke StateInitializers.methods
              (get (StateInitializers.getTogglerProps (Some arg) c) "onClick") args c0
       = Ok (StateInitializers.toggle (record_call h args c0)))
  ∧ (∀ k v, k ≠ "onClick" → arg !! k = Some v →
            StateInitializers.getTogglerProps (Some arg) c !! k = Some v)
  ∧ StateInitializers.getTogglerProps None c
    = StateInitializers.getTogglerProps (Some ∅) c.
Proof.
  assert (Hclick : get (StateInitializers.getTogglerProps (Some arg) c) "onClick"
                   = StateInitializers.callAll [get arg "onClick"; JMethod MToggle]).
  { unfold get at 1. rewrite getTogglerProps_lookup. by rewrite decide_True. }
  split; [intros k; apply getTogglerProps_lookup|]. split; [|split; [|split; [|split]]].
  - intros Hnone. unfold get at 1. rewrite getTogglerProps_lookup.
    rewrite decide_False by done. rewrite Hnone. by rewrite decide_True.
  - intros args c0. rewrite Hclick. apply callAll_onClick_toggle.
  - intros h args c0 Hh. rewrite Hclick, callAll_onClick_toggle.
    by rewrite (get_lookup _ _ _ Hh).
  - intros k v Hk Hv. rewrite getTogglerProps_lookup.
    rewrite decide_False by done. by rewrite Hv.
  - reflexivity.
Qed.

(** C7, checked on the code.  The prop-collections [Toggle] hands its
    function child an object with the two properties [on] and [toggle] and
    nothing else: there is no [togglerProps], so what [Usage] spreads over
    the switch and the button is [undefined] and they get neither an
    [onClick] nor an aria attribute from it. *)
Theorem prop_collections_passes_no_togglerProps (c : component) (given : jsobj) :
  PropCollections.render_arg c !! "togglerProps" = None
  ∧ dom (PropCollections.render_arg c) = {[ "on"; "toggle" ]}
  ∧ PropCollections.render_arg c !! "on" = Some (on c)
  ∧ PropCollections.render_arg c !! "toggle" = Some (JMethod MToggle)
  ∧ PropCollections.Usage given
    = Ok (EHost "div" ∅
            [ EHost "Switch" {[ "on" := JBool false ]} [];
              EHost "hr" ∅ [];
              EHost "button" {[ "aria-label" := JStr "custom-button" ]} [EText "off"] ]).
Proof.
  unfold PropCollections.render_arg. repeat split.
Qed.

(** ** Batches: operations processed together *)

Lemma caller_observed_app (c : component) (q1 q2 : list (updater * callback)) :
  caller_observed c (q1 ++ q2) = caller_observed c q1 && caller_observed c q2.
Proof. unfold caller_observed. apply forallb_app. Qed.

Lemma batch_calls_app (c : component) (q1 q2 : list (updater * callback)) (v : jsval) :
  batch_calls c (q1 ++ q2) v = batch_calls c q1 v ++ batch_calls c q2 v.
Proof.
  induction q1 as [|uc q1 IH]; [done|].
  simpl. rewrite IH. by destruct (observer c (snd uc)).
Qed.

Lemma batch_calls_props (c c' : component) (q : list (updater * callback)) (v : jsval) :
  props c' = props c → batch_calls c' q v = batch_calls c q v.
Proof.
  intros Hp. induction q as [|[u [prop]] q IH]; [done|].
  cbn [batch_calls snd observer]. by rewrite Hp, IH.
Qed.

Lemma caller_observed_props (c c' : component) (q : list (updater * callback)) :
  props c' = props c → caller_observed c' q = caller_observed c q.
Proof.
  intros Hp. unfold caller_observed.
  induction q as [|[u [prop]] q IH]; [done|].
  simpl. by rewrite Hp, IH.
Qed.

Lemma run_callbacks_observed (m : method → component → component)
      (q : list (updater * callback)) (c : component) :
  caller_observed c q = true →
  run_callbacks m (snd <$> q) c
  = Ok (with_calls (calls c ++ batch_calls c q (get (state c) "on")) c).
Proof.
  revert c. induction q as [|[u [prop]] q IH]; intros c Hobs.
  - simpl. rewrite app_nil_r. by destruct c.
  - simpl in Hobs. apply andb_prop in Hobs as [Hf Hq].
    cbn [fmap list_fmap snd run_callbacks run_callback batch_calls observer].
    destruct (get (props c) prop) as [ | | | | |f| | | ] eqn:E; try discriminate.
    etrans; [exact (IH (record_call f [get (state c) "on"] c) Hq)|].
    rewrite (batch_calls_props c (record_call f [get (state c) "on"] c)) by done.
    unfold with_calls, record_call. simpl. by rewrite <- app_assoc.
Qed.

(** Processing a queue whose observers are functions of the caller. *)
Lemma flush_batch (m : method → component → component) (c : component) :
  caller_observed c (pending c) = true →
  flush m c
  = Ok (mkComponent (props c) (initialState c) (process_updates c) []
                    (calls c ++ batch_calls c (pending c) (queued_flag c))).
Proof.
  intros Hobs. unfold flush.
  etrans; [apply run_callbacks_observed; exact Hobs|].
  rewrite (batch_calls_props c) by done. reflexivity.
Qed.

Lemma request_setState (x : exercise) (op : operation) (c : component) :
  request x op c = setState (fst (update_of op)) (snd (update_of op)) c.
Proof. destruct op; [apply (f_equal (λ t, t c)), toggle_same | reflexivity]. Qed.

Lemma requests_snoc (x : exercise) (ops : list operation) (op : operation)
      (c : component) :
  requests x (ops ++ [op]) c = request x op (requests x ops c).
Proof. unfold requests. by rewrite foldl_snoc. Qed.

Lemma requests_frame (x : exercise) (ops : list operation) (c : component) :
  props (requests x ops c) = props c
  ∧ initialState (requests x ops c) = initialState c
  ∧ state (requests x ops c) = state c
  ∧ calls (requests x ops c) = calls c
  ∧ pending (requests x ops c) = pending c ++ (update_of <$> ops).
Proof.
  induction ops as [|op ops IH] using rev_ind.
  - simpl. by rewrite app_nil_r.
  - rewrite requests_snoc, request_setState.
    destruct IH as (Hp & Hi & Hs & Hc & Hq).
    unfold setState. cbn [props initialState state calls pending with_pending].
    rewrite Hq, fmap_app. simpl. repeat split; try done.
    rewrite <- app_assoc. by destruct (update_of op).
Qed.

Lemma batch_calls_requests (c : component) (obs : operation → string)
      (ops : list operation) (v : jsval) :
  (∀ op, op ∈ ops → props c !! observer_prop op = Some (JExt (obs op))) →
  caller_observed c (update_of <$> ops) = true
  ∧ batch_calls c (update_of <$> ops) v = (λ op, Call (obs op) [v]) <$> ops.
Proof.
  induction ops as [|op ops IH]; intros Hobs; [done|].
  assert (Hop : observer c (snd (update_of op)) = JExt (obs op)).
  { specialize (Hobs op (list_elem_of_here _ _)).
    destruct op; simpl in *; by rewrite (get_lookup _ _ _ Hobs). }
  destruct IH as [IH1 IH2].
  { intros op' Hin. apply Hobs. by apply list_elem_of_further. }
  split.
  - cbn [fmap list_fmap caller_observed forallb]. rewrite Hop. exact IH1.
  - cbn [fmap list_fmap batch_calls]. rewrite Hop. f_equal. exact IH2.
Qed.

Lemma process_updates_same_batch (c c' : component) :
  initialState c' = initialState c → state c' = state c → pending c' = pending c →
  process_updates c' = process_updates c.
Proof.
  intros Hi Hs Hq. unfold process_updates. rewrite Hs, Hq.
  f_equal. unfold run_updater. by rewrite Hi.
Qed.

Lemma queued_flag_toggles (x : exercise) (n : nat) (c : component) :
  queued_flag (toggles x n c) = Nat.iter n js_not (queued_flag c).
Proof.
  unfold queued_flag. induction n as [|n IH]; [done|].
  rewrite toggles_S, process_updates_toggle, get_insert, IH. reflexivity.
Qed.

Lemma iter_js_not (n : nat) (v : jsval) :
  Nat.iter n js_not v = flipped n v.
Proof.
  destruct n as [|n]; [done|].
  rewrite Nat.iter_succ_r. unfold js_not at 2. rewrite iter_js_not_bool.
  unfold flipped. rewrite Nat.even_succ, <- Nat.negb_even.
  destruct (Nat.even n); simpl; [done|]. by rewrite negb_involutive.
Qed.

(** C1, as the code has it.  In every exercise and in every current state,
    whatever updates are already queued, one invocation of [toggle]
    processed by React sets the flag to the negation of the flag that the
    updates queued before it produce (the flag of the state when the queue
    is empty), never to the negation of a stale flag; then the observers of
    all the updates of the batch are called in order, the toggle's own
    last, each with the committed flag.  So an invocation reports its own
    new value when it is the last update of its batch, and [n] invocations
    processed together negate the flag [n] times. *)
Theorem toggle_in_any_state (x : exercise) (c : component) (f : string) :
  caller_observed c (pending c) = true →
  props c !! "onToggle" = Some (JExt f) →
  flip x c
  = Ok (mkComponent (props c) (initialState c)
          (<["on" := JBool (negb (truthy (queued_flag c)))]> (process_updates c)) []
          (calls c
           ++ batch_calls c (pending c) (JBool (negb (truthy (queued_flag c))))
           ++ [Call f [JBool (negb (truthy (queued_flag c)))]]))
  ∧ (pending c = [] →
     flip x c
     = Ok (mkComponent (props c) (initialState c)
             (<["on" := JBool (negb (truthy (on c)))]> (state c)) []
             (calls c ++ [Call f [JBool (negb (truthy (on c)))]])))
  ∧ (∀ n, queued_flag (toggles x n c) = flipped n (queued_flag c)).
Proof.
  intros Hobs Hf.
  assert (Hflip : flip x c
    = Ok (mkComponent (props c) (initialState c)
            (<["on" := JBool (negb (truthy (queued_flag c)))]> (process_updates c)) []
            (calls c
             ++ batch_calls c (pending c) (JBool (negb (truthy (queued_flag c))))
             ++ [Call f [JBool (negb (truthy (queued_flag c)))]]))).
  { unfold flip. rewrite flush_batch.
    - unfold queued_flag. rewrite process_updates_toggle, get_insert.
      rewrite toggle_same. unfold setState.
      cbn [props initialState pending calls with_pending].
      rewrite batch_calls_app. cbn [batch_calls snd observer].
      rewrite (batch_calls_props c) by done. cbn [props with_pending].
      by rewrite (get_lookup _ _ _ Hf).
    - rewrite toggle_same. unfold setState. cbn [pending with_pending].
      rewrite (caller_observed_props c) by done.
      rewrite caller_observed_app. apply andb_true_intro. split; [exact Hobs|].
      cbn [caller_observed forallb snd observer]. by rewrite (get_lookup _ _ _ Hf). }
  split; [exact Hflip|]. split.
  - intros Hq. rewrite Hflip. unfold queued_flag.
    rewrite (process_updates_settled c Hq), Hq. reflexivity.
  - intros n. by rewrite queued_flag_toggles, iter_js_not.
Qed.

Lemma toggle_in_any_state_witness :
  flip ExStateInitializers (toggle ExStateInitializers (observed ExStateInitializers))
  = Ok (mkComponent observed_props (JObj {[ "on" := JBool true ]})
                    {[ "on" := JBool true ]} []
                    [Call "onToggle" [JBool true]; Call "onToggle" [JBool true]]).
Proof.
  destruct (toggle_in_any_state ExStateInitializers
              (toggle ExStateInitializers (observed ExStateInitializers)) "onToggle")
    as [H _]; [reflexivity | vm_compute; reflexivity |].
  etrans; [exact H|]. vm_compute. reflexivity.
Defined.

(** C1 as stated fails when two invocations are processed together: the
    first one computes [false] from the flag [true], but once the batch is
    committed the flag is [true] again and both calls of the observer carry
    [true].  A click on the props of [getTogglerProps({onClick: toggle})]
    is such a batch. *)
Lemma first_of_two_toggles_reports_final_flag :
  on (observed ExStateInitializers) = JBool true
  ∧ queued_flag (toggle ExStateInitializers (observed ExStateInitializers))
    = JBool false
  ∧ flush (methods ExStateInitializers)
          (toggle ExStateInitializers
                  (toggle ExStateInitializers (observed ExStateInitializers)))
    = Ok (mkComponent observed_props (JObj {[ "on" := JBool true ]})
                      {[ "on" := JBool true ]} []
                      [Call "onToggle" [JBool true]; Call "onToggle" [JBool true]])
  ∧ (c1 ← invoke StateInitializers.methods
            (get (StateInitializers.getTogglerProps
                    (Some {[ "onClick" := JMethod MToggle ]})
                    (observed ExStateInitializers)) "onClick")
            [] (observed ExStateInitializers);
     flush StateInitializers.methods c1)
    = Ok (mkComponent observed_props (JObj {[ "on" := JBool true ]})
                      {[ "on" := JBool true ]} []
                      [Call "onToggle" [JBool true]; Call "onToggle" [JBool true]]).
Proof. repeat split; vm_compute; reflexivity. Qed.

(** C4, as the code has it.  In every exercise and for every [n]: from a
    boolean flag, [n] flips give the original flag when [n] is even and the
    inverted flag when [n] is odd, whether they are processed one by one or
    together.  From a flag [v] that is not a boolean, no flip leaves [v], an
    odd number of flips gives [!v] and an even number, two or more, gives
    [!!v]: the truthiness of [v] as a boolean, not [v]. *)
Theorem flips_parity_of_any_flag (x : exercise) (c : component) (f : string) (n : nat) :
  pending c = [] →
  props c !! "onToggle" = Some (JExt f) →
  ∃ c', flips x n c = Ok c'
        ∧ on c' = flipped n (on c)
        ∧ queued_flag (toggles x n c) = flipped n (on c)
        ∧ (∀ b, on c = JBool b → on c' = JBool (if Nat.even n then b else negb b)).
Proof.
  intros Hq Hf.
  destruct (flips_settled x n c f Hq Hf) as (c' & Hc' & _ & _ & _ & Hon).
  exists c'. split; [done|]. split; [by rewrite Hon, iter_js_not|]. split.
  - rewrite queued_flag_toggles, iter_js_not. unfold queued_flag.
    by rewrite (process_updates_settled c Hq).
  - intros b Hb. by rewrite Hon, Hb, iter_js_not_bool.
Qed.

Lemma flips_parity_of_any_flag_witness :
  ∃ c', flips ExStateInitializers 3 (observed ExStateInitializers) = Ok c'
        ∧ on c' = JBool false.
Proof.
  destruct (flips_parity_of_any_flag ExStateInitializers
              (observed ExStateInitializers) "onToggle" 3)
    as (c' & H & _ & _ & Hb); [reflexivity | vm_compute; reflexivity |].
  exists c'. split; [exact H|]. apply (Hb true). vm_compute. reflexivity.
Defined.

(** C4 as stated fails for a flag that is not a boolean: built with the
    string ["yes"] as [initialOn], the state-initializers component holds
    [true] after two flips, not ["yes"]. *)
Lemma two_flips_do_not_restore_a_string :
  on (StateInitializers.construct string_props) = JStr "yes"
  ∧ ∃ c', flips ExStateInitializers 2 (StateInitializers.construct string_props) = Ok c'
          ∧ on c' = JBool true
          ∧ on c' ≠ on (StateInitializers.construct string_props).
Proof.
  split; [vm_compute; reflexivity|].
  eexists. split; [vm_compute; reflexivity|].
  split; [vm_compute; reflexivity | vm_compute; discriminate].
Qed.

(** C5, as the code has it.  Whatever operations are invoked together in
    one handler, in any state, React processes them as one batch: every
    flip invocation calls [onToggle] exactly once and every reset
    invocation calls [onReset] exactly once, in the order of the
    invocations, and no invocation calls the other observer.  Every call
    carries the flag committed for the batch: the flag after the flip, or
    the restored flag, for the invocation that is last in its batch (so for
    an operation processed alone), and the final flag of the batch for the
    invocations before it. *)
Theorem each_invocation_notifies_once (x : exercise) (c : component)
        (obs : operation → string) (ops : list operation) :
  caller_observed c (pending c) = true →
  (∀ op, op ∈ ops →
         offers x op = true ∧ props c !! observer_prop op = Some (JExt (obs op))) →
  ∃ c', flush (methods x) (requests x ops c) = Ok c'
        ∧ state c' = process_updates (requests x ops c)
        ∧ pending c' = []
        ∧ calls c' = calls c ++ batch_calls c (pending c) (on c')
                             ++ ((λ op, Call (obs op) [on c']) <$> ops)
        ∧ (∀ ops0, ops = ops0 ++ [Flip] →
                   on c' = JBool (negb (truthy (queued_flag (requests x ops0 c)))))
        ∧ (∀ ops0 i v0, ops = ops0 ++ [Reset] →
                        initialState c = JObj i → i !! "on" = Some v0 →
                        on c' = v0)
        ∧ (pending c = [] → ops = [Flip] → on c' = JBool (negb (truthy (on c)))).
Proof.
  intros Hobs Hops.
  destruct (requests_frame x ops c) as (Hp & Hi & Hs & Hc & Hq).
  destruct (batch_calls_requests c obs ops (queued_flag (requests x ops c)))
    as [Hobs' Hcalls]; [intros op Hin; by apply Hops|].
  assert (Hsame : ∀ q v, batch_calls (requests x ops c) q v = batch_calls c q v)
    by (intros q v; by apply batch_calls_props).
  assert (Hsame' : ∀ q, caller_observed (requests x ops c) q = caller_observed c q)
    by (intros q; by apply caller_observed_props).
  eexists. split.
  { apply flush_batch. rewrite Hsame', Hq, caller_observed_app.
    apply andb_true_intro. by split. }
  cbn [state pending calls].
  assert (Hon : ∀ st p i q cs, on (mkComponent p i st q cs) = get st "on") by done.
  rewrite Hon. fold (queued_flag (requests x ops c)).
  split; [done|]. split; [done|]. split.
  { rewrite Hc, Hsame, Hq, batch_calls_app, Hcalls. reflexivity. }
  split; [|split].
  - intros ops0 ->. rewrite requests_snoc. unfold queued_flag at 1.
    cbn [request]. by rewrite process_updates_toggle, get_insert.
  - intros ops0 i v0 -> Hinit Hv0. rewrite requests_snoc. unfold queued_flag.
    cbn [request]. unfold StateInitializers.reset.
    rewrite process_updates_setState. cbn [run_updater].
    destruct (requests_frame x ops0 c) as (_ & -> & _).
    rewrite Hinit. cbn [assign]. unfold get.
    by rewrite (lookup_union_Some_l _ _ _ _ Hv0).
  - intros Hempty ->. unfold requests, queued_flag. cbn [foldl request].
    rewrite process_updates_toggle, get_insert.
    by rewrite (process_updates_settled c Hempty).
Qed.

Lemma each_invocation_notifies_once_witness :
  ∃ c', flush (methods ExStateInitializers)
              (requests ExStateInitializers [Flip; Reset; Flip]
                        (observed ExStateInitializers)) = Ok c'
        ∧ calls c' = [ Call "onToggle" [JBool false];
                       Call "onReset" [JBool false];
                       Call "onToggle" [JBool false] ].
Proof.
  destruct (each_invocation_notifies_once ExStateInitializers
              (observed ExStateInitializers)
              (λ op, match op with Flip => "onToggle" | Reset => "onReset" end)
              [Flip; Reset; Flip])
    as (c' & H & Hst & _ & Hcalls & _).
  - reflexivity.
  - intros op _. destruct op; split; vm_compute; reflexivity.
  - exists c'. split; [exact H|]. rewrite Hcalls. unfold on. rewrite Hst.
    vm_compute. reflexivity.
Defined.

(** C5 as stated fails when a flip and a reset are invoked in one handler:
    the flip computes [false] from the flag [true], the reset restores
    [true], and [onToggle] is called with [true], the restored flag, not
    with the flag after the flip.  In the other order, which a click on the
    props of [getTogglerProps({onClick: reset})] produces, [onReset] is
    called with [false], the flag after the flip, not with the restored
    flag [true]. *)
Lemma flip_then_reset_reports_restored_flag :
  on (observed ExStateInitializers) = JBool true
  ∧ queued_flag (request ExStateInitializers Flip (observed ExStateInitializers))
    = JBool false
  ∧ flush (methods ExStateInitializers)
          (requests ExStateInitializers [Flip; Reset] (observed ExStateInitializers))
    = Ok (mkComponent observed_props (JObj {[ "on" := JBool true ]})
                      {[ "on" := JBool true ]} []
                      [Call "onToggle" [JBool true]; Call "onReset" [JBool true]])
  ∧ queued_flag (request ExStateInitializers Reset (observed ExStateInitializers))
    = JBool true
  ∧ (c1 ← invoke StateInitializers.methods
            (get (StateInitializers.getTogglerProps
                    (Some {[ "onClick" := JMethod MReset ]})
                    (observed ExStateInitializers)) "onClick")
            [] (observed ExStateInitializers);
     flush StateInitializers.methods c1)
    = Ok (mkComponent observed_props (JObj {[ "on" := JBool true ]})
                      {[ "on" := JBool false ]} []
                      [Call "onReset" [JBool false]; Call "onToggle" [JBool false]]).
Proof. repeat split; vm_compute; reflexivity. Qed.

(** ** Running the exercises *)

Example usage_state_initializers_defaults :
  on (StateInitializers.Usage ∅) = JBool false
  ∧ props (StateInitializers.Usage ∅) !! "onToggle" = Some (JExt "console.log onToggle").
Proof. split; vm_compute; reflexivity. Qed.

Example flip_twice_then_reset :
  (c1 ← flip ExStateInitializers (observed ExStateInitializers);
   c2 ← flip ExStateInitializers c1;
   c3 ← restore c2;
   Ok (on c1, on c2, on c3, calls c3))
  = Ok (JBool false, JBool true, JBool true,
        [ Call "onToggle" [JBool false];
          Call "onToggle" [JBool true];
          Call "onReset" [JBool true] ]).
Proof. vm_compute. reflexivity. Qed.

Example usage_state_initializers_switch :
  StateInitializers.render
    (StateInitializers.Usage_child (observed ExStateInitializers))
    (observed ExStateInitializers)
  = Ok (EHost "div" ∅
          [ EHost "Switch"
                  {[ "on" := JBool true;
                     "aria-pressed" := JBool true;
                     "onClick" := JCallAll [JUndefined; JMethod MToggle] ]} [];
            EHost "hr" ∅ [];
            EHost "button" {[ "onClick" := JMethod MReset ]} [EText "Reset"] ]).
Proof. vm_compute. reflexivity. Qed.

(** Two invocations of [toggle] in one handler are processed together:
    each is notified once, after the state is committed. *)
Example two_toggles_in_one_handler :
  flush StateInitializers.methods (toggles ExStateInitializers 2 (observed ExStateInitializers))
  = Ok (mkComponent observed_props (JObj {[ "on" := JBool true ]})
                    {[ "on" := JBool true ]} []
                    [ Call "onToggle" [JBool true]; Call "onToggle" [JBool true] ]).
Proof. vm_compute. reflexivity. Qed.

Example flip_without_observer_throws :
  flip ExPropCollections (PropCollections.construct ∅)
  = Throw (TypeError "is not a function").
Proof. vm_compute. reflexivity. Qed.

Example usage_flexible_compound_renders :
  render_root (FlexibleCompound.Usage (FlexibleCompound.construct observed_props))
  = Ok [ DText "The button is off";
         DHost "div" ∅
               [DHost "Switch" {[ "on" := JBool false; "onClick" := JMethod MToggle ]} []] ].
Proof. vm_compute. reflexivity. Qed.

Example usage_higher_order_renders :
  render_root (HigherOrder.Usage (HigherOrder.construct observed_props))
  = Ok [ DText "The button is off";
         DHost "Switch" {[ "on" := JBool false; "onClick" := JMethod MToggle ]} [] ].
Proof. vm_compute. reflexivity. Qed.

Example layer2_outside_provider_throws :
  render_root (EComponent HigherOrder.Layer2 ∅)
  = Throw (TypeError "Cannot read properties of undefined").
Proof. vm_compute. reflexivity. Qed.

Example click_on_switch_of_state_initializers :
  (c ← invoke StateInitializers.methods
         (get (StateInitializers.getTogglerProps
                 (Some {[ "onClick" := JExt "onButtonClick" ]})
                 (observed ExStateInitializers)) "onClick")
         [JStr "event"] (observed ExStateInitializers);
   flush StateInitializers.methods c)
  = Ok (mkComponent observed_props (JObj {[ "on" := JBool true ]})
                    {[ "on" := JBool false ]} []
                    [ Call "onButtonClick" [JStr "event"];
                      Call "onToggle" [JBool false] ]).
Proof. vm_compute. reflexivity. Qed.

(** * Further properties *)

(** ** [callAll] *)

Lemma invoke_callAll_nil (m : method → component → component)
      (args : list jsval) (c : component) :
  invoke m (StateInitializers.callAll []) args c = Ok c.
Proof. reflexivity. Qed.

Lemma invoke_callAll_cons (m : method → component → component)
      (fn : jsval) (rest : list jsval) (args : list jsval) (c : component) :
  invoke m (StateInitializers.callAll (fn :: rest)) args c
  = if truthy fn
    then c' ← invoke m fn args c; invoke m (StateInitializers.callAll rest) args c'
    else invoke m (StateInitializers.callAll rest) args c.
Proof. reflexivity. Qed.

Lemma invoke_callAll_app (m : method → component → component)
      (fns1 fns2 : list jsval) (args : list jsval) (c : component) :
  invoke m (StateInitializers.callAll (fns1 ++ fns2)) args c
  = (c' ← invoke m (StateInitializers.callAll fns1) args c;
     invoke m (StateInitializers.callAll fns2) args c').
Proof.
  revert c. induction fns1 as [|fn fns1 IH]; intros c; [done|].
  rewrite <- app_comm_cons, !invoke_callAll_cons.
  destruct (truthy fn); [|apply IH].
  destruct (invoke m fn args c) as [c1|e]; [apply IH|done].
Qed.

Lemma invoke_not_callable (m : method → component → component)
      (v : jsval) (args : list jsval) (c : component) :
  callable v = false →
  invoke m v args c = Throw (TypeError "is not a function").
Proof. by destruct v. Qed.

Lemma external_or_falsy_cases (fn : jsval) :
  external_or_falsy fn = true →
  (∃ h, fn = JExt h)
  ∨ (truthy fn = false
     ∧ ∀ rest args, external_calls (fn :: rest) args = external_calls rest args).
Proof.
  destruct fn; simpl; intros H;
    try (right; split; [by apply negb_true_iff|done]).
  left. eauto.
Qed.

(** X1.  [callAll(...fns)(...args)] skips the falsy entries and calls the
    caller's functions among [fns] in the order given, each with the same
    [args]; nothing else about the component changes. *)
Theorem callAll_calls_in_order (m : method → component → component)
        (fns : list jsval) (args : list jsval) (c : component) :
  forallb external_or_falsy fns = true →
  invoke m (StateInitializers.callAll fns) args c
  = Ok (with_calls (calls c ++ external_calls fns args) c).
Proof.
  revert c. induction fns as [|fn fns IH]; intros c Hall.
  - rewrite invoke_callAll_nil. simpl. rewrite app_nil_r. by destruct c.
  - simpl in Hall. apply andb_prop in Hall as [Hfn Hall].
    rewrite invoke_callAll_cons.
    destruct (external_or_falsy_cases fn Hfn) as [[h ->]|[Hfalsy Hskip]].
    + etrans; [exact (IH (record_call h args c) Hall)|].
      unfold with_calls, record_call. simpl. by rewrite <- app_assoc.
    + rewrite Hfalsy, Hskip. by apply IH.
Qed.

Lemma callAll_calls_in_order_witness :
  invoke StateInitializers.methods
         (StateInitializers.callAll [JExt "first"; JUndefined; JExt "second"])
         [JNum 1] (observed ExStateInitializers)
  = Ok (with_calls [Call "first" [JNum 1]; Call "second" [JNum 1]]
                   (observed ExStateInitializers)).
Proof.
  apply (callAll_calls_in_order StateInitializers.methods
           [JExt "first"; JUndefined; JExt "second"] [JNum 1]
           (observed ExStateInitializers)).
  reflexivity.
Defined.

(** X2.  Calling [callAll] on two lists put together is calling it on the
    first and then, if that did not throw, on the second; [callAll()] of no
    function does nothing. *)
Theorem callAll_append (m : method → component → component)
        (fns1 fns2 : list jsval) (args : list jsval) (c : component) :
  invoke m (StateInitializers.callAll (fns1 ++ fns2)) args c
  = (c' ← invoke m (StateInitializers.callAll fns1) args c;
     invoke m (StateInitializers.callAll fns2) args c')
  ∧ invoke m (StateInitializers.callAll []) args c = Ok c.
Proof. split; [apply invoke_callAll_app | reflexivity]. Qed.

(** X3.  When the entries before a truthy entry of [callAll] that is not a
    function complete, the call throws a [TypeError], whatever entries
    follow it. *)
Theorem callAll_non_function_throws (m : method → component → component)
        (before after : list jsval) (v : jsval) (args : list jsval)
        (c c1 : component) :
  invoke m (StateInitializers.callAll before) args c = Ok c1 →
  truthy v = true →
  callable v = false →
  invoke m (StateInitializers.callAll (before ++ v :: after)) args c
  = Throw (TypeError "is not a function").
Proof.
  intros Hbefore Hv Hnf.
  rewrite invoke_callAll_app, Hbefore.
  etrans; [exact (invoke_callAll_cons m v after args c1)|].
  by rewrite Hv, (invoke_not_callable m v args c1 Hnf).
Qed.

Lemma callAll_non_function_throws_witness :
  invoke StateInitializers.methods
         (StateInitializers.callAll ([JExt "first"] ++ JNum 5 :: [JMethod MToggle]))
         [] (observed ExStateInitializers)
  = Throw (TypeError "is not a function").
Proof.
  apply (callAll_non_function_throws StateInitializers.methods
           [JExt "first"] [JMethod MToggle] (JNum 5) []
           (observed ExStateInitializers)
           (record_call "first" [] (observed ExStateInitializers)));
    reflexivity.
Defined.

(** ** A click on the props of [getTogglerProps] *)

Lemma getTogglerProps_onClick (arg : jsobj) (c : component) :
  get (StateInitializers.getTogglerProps (Some arg) c) "onClick"
  = StateInitializers.callAll [get arg "onClick"; JMethod MToggle].
Proof. unfold get at 1. rewrite getTogglerProps_lookup. by rewrite decide_True. Qed.

Lemma flush_toggle_is_flip (c : component) :
  flush StateInitializers.methods (StateInitializers.toggle c)
  = flip ExStateInitializers c.
Proof. reflexivity. Qed.

(** X4.  A click on an element that carries the props of
    [getTogglerProps] runs the caller's [onClick] first, with the arguments
    of the click, then flips the flag and notifies [onToggle] with the new
    value; without a caller [onClick] the click is just a flip. *)
Theorem click_runs_onClick_then_flips (arg : jsobj) (c : component)
        (f : string) (args : list jsval) :
  pending c = [] →
  props c !! "onToggle" = Some (JExt f) →
  (∀ h, arg !! "onClick" = Some (JExt h) →
        (c1 ← invoke StateInitializers.methods
                (get (StateInitializers.getTogglerProps (Some arg) c) "onClick")
                args c;
         flush StateInitializers.methods c1)
        = Ok (mkComponent (props c) (initialState c)
                          (<["on" := js_not (on c)]> (state c)) []
                          (calls c ++ [Call h args; Call f [js_not (on c)]])))
  ∧ (truthy (get arg "onClick") = false →
     (c1 ← invoke StateInitializers.methods
             (get (StateInitializers.getTogglerProps (Some arg) c) "onClick")
             args c;
      flush StateInitializers.methods c1)
     = flip ExStateInitializers c).
Proof.
  intros Hq Hf. split.
  - intros h Hh. rewrite getTogglerProps_onClick, callAll_onClick_toggle.
    rewrite (get_lookup _ _ _ Hh).
    etrans; [exact (flip_settled ExStateInitializers (record_call h args c) f Hq Hf)|].
    unfold record_call, on. simpl. by rewrite <- app_assoc.
  - intros Hfalsy. rewrite getTogglerProps_onClick, callAll_onClick_toggle.
    by rewrite Hfalsy.
Qed.

Lemma click_runs_onClick_then_flips_witness :
  (c1 ← invoke StateInitializers.methods
          (get (StateInitializers.getTogglerProps
                  (Some {[ "onClick" := JExt "onButtonClick" ]})
                  (observed ExStateInitializers)) "onClick")
          [JStr "event"] (observed ExStateInitializers);
   flush StateInitializers.methods c1)
  = Ok (mkComponent observed_props (JObj {[ "on" := JBool true ]})
                    {[ "on" := JBool false ]} []
                    [ Call "onButtonClick" [JStr "event"];
                      Call "onToggle" [JBool false] ]).
Proof.
  destruct (click_runs_onClick_then_flips
              {[ "onClick" := JExt "onButtonClick" ]}
              (observed ExStateInitializers) "onToggle" [JStr "event"])
    as [H _]; [reflexivity | vm_compute; reflexivity |].
  etrans; [apply (H "onButtonClick"); vm_compute; reflexivity|].
  vm_compute. reflexivity.
Defined.

(** ** What the operations leave alone *)

Lemma updates_keep_others (c : component) (q : list (updater * callback))
      (st : jsobj) (k : string) :
  k ≠ "on" →
  (∀ i v, initialState c = JObj i → i !! k = Some v → st !! k = Some v) →
  foldl (λ st uc, assign st (run_updater c (fst uc) st)) st q !! k = st !! k.
Proof.
  intros Hk. revert st. induction q as [|[u cb] q IH]; intros st Hi; [done|].
  simpl.
  assert (Hstep : assign st (run_updater c u st) !! k = st !! k).
  { destruct u; simpl.
    - rewrite lookup_union_r; [done|]. by rewrite lookup_singleton_ne.
    - destruct (initialState c) as [ | | | | | | | |i] eqn:E; simpl; try done.
      destruct (i !! k) as [v|] eqn:Ek.
      + rewrite (lookup_union_Some_l _ _ _ _ Ek). symmetry. by eapply Hi.
      + by rewrite lookup_union_r. }
  rewrite IH; [done|]. intros i v Hinit Hv. rewrite Hstep. by eapply Hi.
Qed.

Lemma updates_keep_flag_present (c : component) (q : list (updater * callback))
      (st : jsobj) :
  is_Some (st !! "on") →
  is_Some (foldl (λ st uc, assign st (run_updater c (fst uc) st)) st q !! "on").
Proof.
  revert st. induction q as [|[u cb] q IH]; intros st Hst; [done|].
  simpl. apply IH. destruct u; simpl.
  - apply lookup_union_is_Some. left. rewrite lookup_singleton_eq. eauto.
  - destruct (initialState c); simpl; try done.
    apply lookup_union_is_Some. by right.
Qed.

Lemma construct_initialState_agrees (x : exercise) (given : jsobj) (k : string) :
  ∀ i v, initialState (construct x given) = JObj i → i !! k = Some v →
         state (construct x given) !! k = Some v.
Proof. intros i v. destruct x; simpl; try discriminate; by intros [= <-]. Qed.

Lemma reachable_state_frame (x : exercise) (given : jsobj) (c : component) :
  reachable x given c →
  is_Some (state c !! "on")
  ∧ ∀ k, k ≠ "on" → state c !! k = state (construct x given) !! k.
Proof.
  induction 1 as [|op c c' Hc [IHon IH] Hoff Hop].
  - split; [|done]. destruct x; simpl; eauto.
    all: rewrite lookup_insert_eq; eauto.
  - destruct (reachable_frame _ _ _ Hc) as [_ Hi].
    destruct (perform_state _ _ _ _ Hop) as (u & cb & ->).
    unfold process_updates. split.
    + by apply updates_keep_flag_present.
    + intros k Hk. rewrite updates_keep_others; [by apply IH|done|].
      intros i v. cbn [initialState setState with_pending state]. rewrite Hi.
      intros Hinit Hv. rewrite (IH k Hk).
      by eapply construct_initialState_agrees.
Qed.

Lemma reachable_state_toggle (x : exercise) (given : jsobj) (c : component) :
  x = ExHigherOrder ∨ x = ExFlexibleCompound ∨ x = ExProvider →
  reachable x given c →
  get (state c) "toggle" = JMethod MToggle.
Proof.
  intros Hx Hc. destruct (reachable_state_frame _ _ _ Hc) as [_ Hothers].
  unfold get. rewrite Hothers by done.
  by destruct Hx as [-> | [-> | ->]].
Qed.

(** X5.  Whatever sequence of flips and resets is performed, the props and
    the [initialState] field are those of construction, the state keeps its
    flag property, and every other property of the state is untouched; so
    the [toggle] function that three of the exercises keep in their state
    and share through the context is always there. *)
Theorem only_the_flag_changes (x : exercise) (given : jsobj) (c : component) :
  reachable x given c →
  props c = props (construct x given)
  ∧ initialState c = initialState (construct x given)
  ∧ is_Some (state c !! "on")
  ∧ (∀ k, k ≠ "on" → state c !! k = state (construct x given) !! k)
  ∧ (x = ExHigherOrder ∨ x = ExFlexibleCompound ∨ x = ExProvider →
     state c !! "toggle" = Some (JMethod MToggle)).
Proof.
  intros Hc.
  destruct (reachable_frame _ _ _ Hc) as [Hp Hi].
  destruct (reachable_state_frame _ _ _ Hc) as [Hon Hothers].
  repeat split; try done.
  intros Hx. rewrite Hothers by done.
  by destruct Hx as [-> | [-> | ->]].
Qed.

Lemma only_the_flag_changes_witness :
  state (mkComponent observed_props
                     (JObj {[ "on" := JBool false; "toggle" := JMethod MToggle ]})
                     {[ "on" := JBool true; "toggle" := JMethod MToggle ]} []
                     [Call "onToggle" [JBool true]]) !! "toggle"
  = Some (JMethod MToggle).
Proof.
  destruct (only_the_flag_changes ExProvider observed_props
              (mkComponent observed_props
                 (JObj {[ "on" := JBool false; "toggle" := JMethod MToggle ]})
                 {[ "on" := JBool true; "toggle" := JMethod MToggle ]} []
                 [Call "onToggle" [JBool true]]))
    as (_ & _ & _ & _ & Ht).
  - apply (reachable_perform ExProvider observed_props Flip (observed ExProvider));
      [apply reachable_construct | reflexivity | vm_compute; reflexivity].
  - apply Ht. auto.
Defined.

(** ** What the observer sees *)

Lemma fired_notifications (f : string) (v : jsval) (n : nat) :
  fired f (notifications f v n) = n.
Proof.
  revert v. induction n as [|n IH]; intros v; [done|].
  simpl. by rewrite String.eqb_refl, IH.
Qed.

Lemma flips_calls (x : exercise) (n : nat) (c : component) (f : string) :
  pending c = [] →
  props c !! "onToggle" = Some (JExt f) →
  ∃ c', flips x n c = Ok c'
        ∧ calls c' = calls c ++ notifications f (on c) n.
Proof.
  revert c. induction n as [|n IH]; intros c Hq Hf.
  - exists c. by rewrite app_nil_r.
  - simpl flips. rewrite (flip_settled x c f Hq Hf).
    edestruct (IH (mkComponent (props c) (initialState c)
                               (<["on" := js_not (on c)]> (state c)) []
                               (calls c ++ [Call f [js_not (on c)]])))
      as (c' & Hc' & Hcalls); [done..|].
    exists c'. split; [exact Hc'|].
    rewrite Hcalls, on_insert. cbn [calls notifications].
    by rewrite <- app_assoc.
Qed.

(** X6.  [n] flips in a row call the observer [n] times, in order, with
    the successive values of the flag: the first call carries the negation
    of the starting flag, each later one the negation of the one before. *)
Theorem flips_report_each_value (x : exercise) (n : nat) (c : component) (f : string) :
  pending c = [] →
  props c !! "onToggle" = Some (JExt f) →
  ∃ c', flips x n c = Ok c'
        ∧ calls c' = calls c ++ notifications f (on c) n
        ∧ fired f (calls c') = fired f (calls c) + n.
Proof.
  intros Hq Hf. destruct (flips_calls x n c f Hq Hf) as (c' & Hc' & Hcalls).
  exists c'. repeat split; try done.
  by rewrite Hcalls, fired_app, fired_notifications.
Qed.

Lemma flips_report_each_value_witness :
  ∃ c', flips ExHigherOrder 3 (observed ExHigherOrder) = Ok c'
        ∧ calls c' = [ Call "onToggle" [JBool true];
                       Call "onToggle" [JBool false];
                       Call "onToggle" [JBool true] ].
Proof.
  destruct (flips_report_each_value ExHigherOrder 3 (observed ExHigherOrder) "onToggle")
    as (c' & H & Hcalls & _); [reflexivity | vm_compute; reflexivity |].
  exists c'. split; [exact H|]. rewrite Hcalls. vm_compute. reflexivity.
Defined.

(** ** A missing observer *)

(** X7.  When the [onToggle] prop is not a function (absent, [undefined],
    [null], ...), a flip throws a [TypeError] in every exercise, and so does
    a reset when [onReset] is not a function: no class guards the call of
    its observer. *)
Theorem operation_without_observer_throws (x : exercise) (c : component) :
  pending c = [] →
  (callable (get (props c) "onToggle") = false →
   flip x c = Throw (TypeError "is not a function"))
  ∧ (callable (get (props c) "onReset") = false →
     restore c = Throw (TypeError "is not a function")).
Proof.
  intros Hq. split; intros Hnf.
  - unfold flip, flush. rewrite toggle_same. unfold setState.
    cbn [pending with_pending]. rewrite Hq. simpl.
    by rewrite (invoke_not_callable _ _ _ _ Hnf).
  - unfold restore, flush, StateInitializers.reset, setState.
    cbn [pending with_pending]. rewrite Hq. simpl.
    by rewrite (invoke_not_callable _ _ _ _ Hnf).
Qed.

Lemma operation_without_observer_throws_witness :
  flip ExPropCollections (Usage_toggle ExPropCollections ∅)
  = Throw (TypeError "is not a function").
Proof.
  destruct (operation_without_observer_throws ExPropCollections
              (Usage_toggle ExPropCollections ∅)) as [H _];
    [reflexivity | apply H; reflexivity].
Defined.

(** X8.  Whatever the flag held before, and whatever was still queued, the
    flag is a boolean after every flip that completes. *)
Theorem flip_leaves_a_boolean (x : exercise) (c c' : component) :
  flip x c = Ok c' →
  is_bool (on c') = true.
Proof.
  intros H. unfold flip in H.
  destruct (flush_frame _ _ _ (methods_only_enqueue x) H) as (_ & _ & Hst).
  unfold on. by rewrite Hst, process_updates_toggle, get_insert.
Qed.

Lemma flip_leaves_a_boolean_witness :
  is_bool (on (mkComponent {[ "initialOn" := JStr "yes"; "onToggle" := JExt "onToggle" ]}
                 (JObj {[ "on" := JStr "yes" ]}) {[ "on" := JBool false ]} []
                 [Call "onToggle" [JBool false]])) = true.
Proof.
  apply (flip_leaves_a_boolean ExStateInitializers
           (StateInitializers.construct
              {[ "initialOn" := JStr "yes"; "onToggle" := JExt "onToggle" ]})).
  vm_compute. reflexivity.
Defined.

(** ** What the exercises render *)

Lemma get_union_r (o1 o2 : jsobj) (k : string) :
  o1 !! k = None → get (o1 ∪ o2) k = get o2 k.
Proof. intros H. unfold get. by rewrite lookup_union_r. Qed.

Lemma get_union_l (o1 o2 : jsobj) (k : string) (v : jsval) :
  o1 !! k = Some v → get (o1 ∪ o2) k = v.
Proof. intros H. unfold get. by rewrite (lookup_union_Some_l _ _ _ _ H). Qed.

(** A list of one element renders as the element. *)
Lemma render_provider_single (env : jsobj) (k : string) (v : jsval) (e : element) :
  render_element env (EProvider k v [e]) = render_element (<[k := v]> env) e.
Proof.
  cbn [render_element].
  destruct (render_element (<[k:=v]> env) e) as [ds|]; [|done].
  simpl. by rewrite app_nil_r.
Qed.

(** Reading a context or a prop that has just been set. *)
Ltac read_back :=
  repeat first
    [ rewrite get_insert
    | rewrite get_singleton
    | rewrite map_empty_union
    | rewrite get_union_r by done
    | rewrite get_insert_other by done
    | progress simpl ].

Lemma higher_order_layers (env o : jsobj) :
  render_element (<[HigherOrder.ToggleContext := JObj o]> env)
                 (EComponent HigherOrder.Layer1 ∅)
  = Ok [ DText (message (get o "on"));
         DHost "Switch" {[ "on" := get o "on"; "onClick" := get o "toggle" ]} [] ].
Proof.
  unfold message. read_back. by destruct (truthy (get o "on")).
Qed.

Lemma provider_layers (env o : jsobj) :
  render_element (<[Provider.ToggleContext := JObj o]> env)
                 (EComponent Provider.Layer1 ∅)
  = Ok [ DText (message (get o "on"));
         DHost "Switch" {[ "on" := get o "on"; "onClick" := get o "toggle" ]} [] ].
Proof.
  unfold message. read_back. by destruct (truthy (get o "on")).
Qed.

(** X9.  Under a provider whose value is any object, whatever else
    surrounds it, the four nested layers of the higher-order-components
    exercise, and those of the provider-pattern exercise, display the
    message for the flag of the context followed by a switch that shows
    that flag and whose click handler is the [toggle] of the context;
    nothing is threaded through the layers in between. *)
Theorem layers_read_the_context (env o : jsobj) :
  render_element (<[HigherOrder.ToggleContext := JObj o]> env)
                 (EComponent HigherOrder.Layer1 ∅)
  = Ok [ DText (message (get o "on"));
         DHost "Switch" {[ "on" := get o "on"; "onClick" := get o "toggle" ]} [] ]
  ∧ render_element (<[Provider.ToggleContext := JObj o]> env)
                   (EComponent Provider.Layer1 ∅)
    = Ok [ DText (message (get o "on"));
           DHost "Switch" {[ "on" := get o "on"; "onClick" := get o "toggle" ]} [] ].
Proof. split; [apply higher_order_layers | apply provider_layers]. Qed.

(** X10.  The flexible-compound [Usage] displays, for every component,
    exactly one of the two messages, the one for the flag, and a switch in a
    [div] that shows the flag and flips it when clicked; no prop of the
    [Toggle] can change the value its provider shares. *)
Theorem flexible_compound_usage_renders (c : component) :
  render_root (FlexibleCompound.Usage c)
  = Ok [ DText (message (on c));
         DHost "div" ∅
               [DHost "Switch" {[ "on" := on c; "onClick" := JMethod MToggle ]} []] ]
  ∧ ∀ env child,
      render_element env
        (FlexibleCompound.render [FlexibleCompound.ToggleConsumer child] c)
      = (e ← child (JObj {[ "on" := on c; "toggle" := JMethod MToggle ]});
         render_element
           (<[FlexibleCompound.ToggleContext :=
                JObj {[ "on" := on c; "toggle" := JMethod MToggle ]}]> env) e).
Proof.
  split.
  - unfold message, render_root, FlexibleCompound.Usage, on. read_back.
    by destruct (truthy (get (state c) "on")).
  - intros env child. unfold FlexibleCompound.render.
    rewrite render_provider_single.
    unfold FlexibleCompound.ToggleConsumer, on. cbn [render_element].
    by rewrite get_insert.
Qed.

Lemma shared_value_without_value_prop (given : jsobj) (c : component) :
  props c = given →
  given !! "value" = None →
  get (props c ∪ {[ "value" := JObj (state c) ]}) "value" = JObj (state c).
Proof.
  intros -> Hv. rewrite get_union_r by done. apply get_singleton.
Qed.

(** X11.  In the higher-order-components and provider-pattern exercises,
    in every state reached by flips of a [Toggle] that was given no [value]
    prop, [Usage] displays the message for the flag and a switch that shows
    the flag and whose click handler is the component's [toggle]. *)
Theorem usage_follows_the_flag (given : jsobj) :
  given !! "value" = None →
  (∀ c, reachable ExHigherOrder given c →
        render_root (HigherOrder.Usage c)
        = Ok [ DText (message (on c));
               DHost "Switch" {[ "on" := on c; "onClick" := JMethod MToggle ]} [] ])
  ∧ (∀ c, reachable ExProvider given c →
          (e ← Provider.Usage c; render_root e)
          = Ok [ DText (message (on c));
                 DHost "div" ∅
                       [DHost "Switch" {[ "on" := on c; "onClick" := JMethod MToggle ]} []] ]).
Proof.
  intros Hv. split; intros c Hc.
  - destruct (reachable_frame _ _ _ Hc) as [Hp _]. simpl in Hp.
    pose proof (reachable_state_toggle ExHigherOrder given c) as Ht.
    unfold render_root, HigherOrder.Usage, HigherOrder.render.
    rewrite (shared_value_without_value_prop given c Hp Hv).
    rewrite render_provider_single, higher_order_layers.
    rewrite Ht by auto. done.
  - destruct (reachable_frame _ _ _ Hc) as [Hp _]. simpl in Hp.
    pose proof (reachable_state_toggle ExProvider given c) as Ht.
    unfold Provider.Usage, Provider.render. simpl mbind. unfold outcome_bind.
    rewrite (shared_value_without_value_prop given c Hp Hv).
    unfold render_root, message, on. read_back.
    rewrite Ht by auto. by destruct (truthy (get (state c) "on")).
Qed.

Lemma usage_follows_the_flag_witness :
  render_root (HigherOrder.Usage (observed ExHigherOrder))
  = Ok [ DText "The button is off";
         DHost "Switch" {[ "on" := JBool false; "onClick" := JMethod MToggle ]} [] ].
Proof.
  destruct (usage_follows_the_flag observed_props) as [H _];
    [vm_compute; reflexivity|].
  etrans; [apply H; apply reachable_construct|].
  vm_compute. reflexivity.
Defined.

(** X12.  In the higher-order-components and provider-pattern exercises
    the props of the [Toggle] are spread over the provider after [value]:
    a [value] prop given to the [Toggle] replaces the state as the shared
    value.  The consumers then receive that prop, and the guarded consumer
    of the provider-pattern exercise throws inside the [Toggle] when the
    prop is falsy. *)
Theorem value_prop_replaces_shared_state (env : jsobj) (c : component) (v : jsval)
        (child : jsval → outcome element) :
  props c !! "value" = Some v →
  render_element env (HigherOrder.render [HigherOrder.Consumer child] c)
  = (e ← child v; render_element (<[HigherOrder.ToggleContext := v]> env) e)
  ∧ (e ← Provider.render (Provider.Nodes [Provider.Consumer child]) c;
     render_element env e)
    = (if truthy v
       then e ← child v; render_element (<[Provider.ToggleContext := v]> env) e
       else Throw misuse).
Proof.
  intros Hv.
  assert (Hval : get (props c ∪ {[ "value" := JObj (state c) ]}) "value" = v)
    by (by apply get_union_l).
  split.
  - unfold HigherOrder.render. rewrite Hval, render_provider_single.
    unfold HigherOrder.Consumer. cbn [render_element]. by rewrite get_insert.
  - etrans; [apply (render_provider_single env Provider.ToggleContext)|].
    rewrite Hval.
    unfold Provider.Consumer, Provider.ToggleConsumer. cbn [render_element].
    rewrite get_insert. by destruct (truthy v).
Qed.

Lemma value_prop_replaces_shared_state_witness :
  (e ← Provider.render (Provider.Nodes [Provider.On (EText "on")])
         (Provider.construct {[ "value" := JNull ]});
   render_root e)
  = Throw misuse.
Proof.
  destruct (value_prop_replaces_shared_state ∅
              (Provider.construct {[ "value" := JNull ]}) JNull
              (λ contextValue,
                 on ← get_prop contextValue "on";
                 Ok (if truthy on then EText "on" else ENull)))
    as [_ H]; [vm_compute; reflexivity | exact H].
Defined.

(** X13.  A component wrapped by [withToggle] is rendered with the props
    the wrapper received and with the value of the context as its [toggle]
    prop, [undefined] when no provider encloses it; the received props are
    spread last, so a [toggle] prop of the caller hides the context and
    every other prop arrives unchanged. *)
Theorem withToggle_passes_the_context (C : fcomponent) (props env : jsobj) (ctx : jsval) :
  render_element (<[HigherOrder.ToggleContext := ctx]> env)
                 (EComponent (HigherOrder.withToggle C) props)
  = (e ← C (props ∪ {[ "toggle" := ctx ]});
     render_element (<[HigherOrder.ToggleContext := ctx]> env) e)
  ∧ render_element env (EComponent (HigherOrder.withToggle C) props)
    = (e ← C (props ∪ {[ "toggle" := get env HigherOrder.ToggleContext ]});
       render_element env e)
  ∧ get (props ∪ {[ "toggle" := ctx ]}) "toggle" = default ctx (props !! "toggle")
  ∧ (∀ k, k ≠ "toggle" → (props ∪ {[ "toggle" := ctx ]}) !! k = props !! k).
Proof.
  split; [|split; [reflexivity|split]].
  - cbn [render_element HigherOrder.withToggle HigherOrder.Consumer mbind outcome_bind].
    by rewrite get_insert.
  - destruct (props !! "toggle") as [v|] eqn:E; simpl.
    + by apply get_union_l.
    + rewrite get_union_r by done. apply get_singleton.
  - intros k Hk. rewrite lookup_union, lookup_singleton_ne by done.
    by destruct (props !! k).
Qed.

(** X14.  When the [Toggle] of the provider-pattern exercise is given a
    function as its child and no [value] prop, the function receives the
    state, and a consumer inside what it returns receives the same
    object. *)
Theorem render_prop_and_context_agree (env : jsobj) (c : component)
        (g : jsval → jsval → outcome element) :
  props c !! "value" = None →
  (e ← Provider.render
         (Provider.RenderProp (λ st, Ok (Provider.Consumer (λ context, g st context)))) c;
   render_element env e)
  = (e ← g (JObj (state c)) (JObj (state c));
     render_element (<[Provider.ToggleContext := JObj (state c)]> env) e).
Proof.
  intros Hv.
  etrans; [apply (render_provider_single env Provider.ToggleContext)|].
  rewrite get_union_r by done. rewrite get_singleton.
  unfold Provider.Consumer, Provider.ToggleConsumer. cbn [render_element].
  by rewrite get_insert.
Qed.

Lemma render_prop_and_context_agree_witness :
  (e ← Provider.render
         (Provider.RenderProp
            (λ st, Ok (Provider.Consumer
                         (λ context,
                            a ← get_prop st "on"; b ← get_prop context "on";
                            Ok (EText (message a +:+ message b))))))
         (observed ExProvider);
   render_root e)
  = Ok [DText "The button is offThe button is off"].
Proof.
  etrans;
    [apply (render_prop_and_context_agree ∅ (observed ExProvider)
              (λ st context,
                 a ← get_prop st "on"; b ← get_prop context "on";
                 Ok (EText (message a +:+ message b))));
     vm_compute; reflexivity|].
  vm_compute. reflexivity.
Defined.

(** X15.  For every component of the state-initializers exercise, [Usage]
    renders a switch whose [on] and ['aria-pressed'] props are both the
    flag, and a reset button; a click on the switch is a flip and a click
    on the button a reset, whatever arguments the click passes. *)
Theorem state_initializers_usage_renders (c : component) (args : list jsval) :
  StateInitializers.render (StateInitializers.Usage_child c) c
  = Ok (EHost "div" ∅
          [ EHost "Switch"
                  {[ "on" := on c;
                     "aria-pressed" := on c;
                     "onClick" := StateInitializers.callAll [JUndefined; JMethod MToggle] ]} [];
            EHost "hr" ∅ [];
            EHost "button" {[ "onClick" := JMethod MReset ]} [EText "Reset"] ])
  ∧ (c1 ← invoke StateInitializers.methods
            (StateInitializers.callAll [JUndefined; JMethod MToggle]) args c;
     flush StateInitializers.methods c1)
    = flip ExStateInitializers c
  ∧ (c1 ← invoke StateInitializers.methods (JMethod MReset) args c;
     flush StateInitializers.methods c1)
    = restore c.
Proof. repeat split. Qed.

(** X16.  The [Toggle] that [Usage] creates when its caller passes no
    [onToggle]: in four exercises [Usage] supplies a logging function, so a
    flip succeeds and logs the new flag; the prop-collections [Usage]
    passes [undefined] on, and the flip throws a [TypeError]. *)
Theorem usage_without_onToggle (x : exercise) (given : jsobj) :
  given !! "onToggle" = None →
  (x ≠ ExPropCollections →
   ∃ c', flip x (Usage_toggle x given) = Ok c'
         ∧ on c' = js_not (on (Usage_toggle x given))
         ∧ calls c' = [Call "console.log onToggle" [js_not (on (Usage_toggle x given))]])
  ∧ (x = ExPropCollections →
     flip x (Usage_toggle x given) = Throw (TypeError "is not a function")).
Proof.
  intros Hnone.
  assert (Hdef : get (resolve_default_props
                        {[ "onToggle" := JExt "console.log onToggle" ]} given)
                     "onToggle" = JExt "console.log onToggle").
  { unfold get, resolve_default_props.
    by rewrite lookup_merge, lookup_singleton_eq, Hnone. }
  split.
  - intros Hx.
    assert (Hf : props (Usage_toggle x given) !! "onToggle"
                 = Some (JExt "console.log onToggle")).
    { destruct x; [| | | |done].
      - unfold Usage_toggle, StateInitializers.Usage.
        rewrite construct_props_other by done.
        rewrite lookup_insert_ne by done. rewrite lookup_insert_eq.
        f_equal. unfold StateInitializers.Usage_props, get, resolve_default_props.
        rewrite lookup_merge, Hnone. by rewrite lookup_insert_ne, lookup_insert_eq.
      - unfold Usage_toggle, construct, HigherOrder.construct. cbn [props].
        by rewrite lookup_singleton_eq, Hdef.
      - unfold Usage_toggle, construct, FlexibleCompound.construct. cbn [props].
        by rewrite lookup_singleton_eq, Hdef.
      - unfold Usage_toggle, construct, Provider.construct. cbn [props].
        by rewrite lookup_insert_eq, Hdef. }
    assert (Hq : pending (Usage_toggle x given) = []) by (by destruct x).
    eexists. split; [exact (flip_settled x _ _ Hq Hf)|].
    assert (Hcalls : calls (Usage_toggle x given) = []) by (by destruct x).
    rewrite on_insert. cbn [calls]. by rewrite Hcalls.
  - intros ->. unfold Usage_toggle, get at 1. rewrite Hnone. reflexivity.
Qed.

Lemma usage_without_onToggle_witness :
  ∃ c', flip ExFlexibleCompound (Usage_toggle ExFlexibleCompound ∅) = Ok c'
        ∧ calls c' = [Call "console.log onToggle" [JBool true]].
Proof.
  destruct (usage_without_onToggle ExFlexibleCompound ∅) as [H _];
    [reflexivity|].
  destruct H as (c' & Hflip & _ & Hcalls); [discriminate|].
  exists c'. split; [exact Hflip|]. rewrite Hcalls. vm_compute. reflexivity.
Defined.
